(** * Portfolio-Tracker: the stock dashboard of [src/App.js]

    A shallow embedding of the state, the metrics computation, the chart
    adapter and the three mutating handlers of the [StockDashboard]
    component, followed by the properties established about them.

    Conventions of the embedding.

    - A JavaScript number is a [number]: [NaN], one of the two infinities,
      or an exact rational ([Qc], the canonical rationals).  Rounding,
      overflow and underflow of IEEE doubles and the sign of zero are not
      represented: finite arithmetic is exact.  Module [Doubles] repeats
      the metrics computation on binary64 floats, for holdings whose
      price and quantity are numbers, where rounding decides.
    - A field of a holding object holds a primitive [value]; a field the
      object does not have reads as [Undefined], as in JavaScript.
    - [StringToNumber], the conversion of a string to a number done by the
      language runtime, is a variable of the development: every theorem
      holds for any such conversion.  [decimalLiteral] is one instance,
      used to run the handlers on form input.
    - A handler is run on the values its closure captured when the
      component was rendered; state setters write to the component state
      and the writes survive an exception thrown later in the handler. *)

From Stdlib Require Import List Bool Ascii String ZArith QArith Qcanon Lia.
From Stdlib Require Import Permutation.
From Stdlib Require Floats.
Import ListNotations.

(* ================================================================== *)
(** ** Numbers                                                         *)
(* ================================================================== *)

Inductive number : Type :=
| NaN
| Inf (negative : bool)
| Fin (q : Qc).

Definition Qcltb (x y : Qc) : bool :=
  match (x ?= y)%Qc with Lt => true | _ => false end.

Definition Qceqb (x y : Qc) : bool :=
  match (x ?= y)%Qc with Eq => true | _ => false end.

Definition zero : number := Fin (Q2Qc 0).
Definition hundred : number := Fin (Q2Qc 100).

(** Sign of a number that is not NaN: [Lt] negative, [Eq] zero, [Gt]
    positive. *)
Definition sign_of (n : number) : comparison :=
  match n with
  | NaN => Eq
  | Inf neg => if neg then Lt else Gt
  | Fin q => (q ?= Q2Qc 0)%Qc
  end.

(** [x + y] on numbers. *)
Definition nadd (x y : number) : number :=
  match x, y with
  | NaN, _ | _, NaN => NaN
  | Inf a, Inf b => if Bool.eqb a b then Inf a else NaN
  | Inf a, Fin _ => Inf a
  | Fin _, Inf b => Inf b
  | Fin p, Fin q => Fin (p + q)%Qc
  end.

(** [x * y] on numbers: an infinity times zero is NaN. *)
Definition nmul (x y : number) : number :=
  match x, y with
  | NaN, _ | _, NaN => NaN
  | Fin p, Fin q => Fin (p * q)%Qc
  | _, _ =>
      match sign_of x, sign_of y with
      | Eq, _ | _, Eq => NaN
      | Lt, Lt | Gt, Gt => Inf false
      | _, _ => Inf true
      end
  end.

(** [x / y] on numbers: a non-zero number over zero is an infinity, zero
    over zero and infinity over infinity are NaN. *)
Definition ndiv (x y : number) : number :=
  match x, y with
  | NaN, _ | _, NaN => NaN
  | Inf _, Inf _ => NaN
  | Fin _, Inf _ => zero
  | Inf a, Fin q =>
      match (q ?= Q2Qc 0)%Qc with
      | Lt => Inf (negb a)
      | _ => Inf a
      end
  | Fin p, Fin q =>
      if Qceqb q (Q2Qc 0) then
        match (p ?= Q2Qc 0)%Qc with
        | Eq => NaN
        | Lt => Inf true
        | Gt => Inf false
        end
      else Fin (p / q)%Qc
  end.

(** The comparison [x < y] of two numbers; [None] is the "undefined"
    outcome of the language's IsLessThan, produced when a side is NaN. *)
Definition nlt (x y : number) : option bool :=
  match x, y with
  | NaN, _ | _, NaN => None
  | Inf a, Inf b => Some (a && negb b)
  | Inf a, Fin _ => Some a
  | Fin _, Inf b => Some (negb b)
  | Fin p, Fin q => Some (Qcltb p q)
  end.

(* ================================================================== *)
(** ** Values and the coercions the component relies on                *)
(* ================================================================== *)

Inductive value : Type :=
| Undefined
| Null
| Boolean (b : bool)
| Number (n : number)
| Str (s : string).

(** *** An instance of the string conversion: plain decimal literals

    Optional surrounding blanks, an optional sign, then [Infinity] or
    digits with an optional fraction; the empty string is zero and
    anything else is NaN.  Exponents and radix prefixes are left out of
    this instance. *)

Definition is_blank (c : ascii) : bool :=
  match c with
  | " "%char | "009"%char | "010"%char | "013"%char => true
  | _ => false
  end.

Fixpoint skip_blanks (s : string) : string :=
  match s with
  | String.String c s' => if is_blank c then skip_blanks s' else s
  | EmptyString => s
  end.

Fixpoint all_blank (s : string) : bool :=
  match s with
  | String.String c s' => is_blank c && all_blank s'
  | EmptyString => true
  end.

Definition digit_of (c : ascii) : option Z :=
  let n := Z.of_nat (nat_of_ascii c) in
  if ((48 <=? n) && (n <=? 57))%Z then Some (n - 48)%Z else None.

(** Consumes the leading digits of [s]: their value on top of [acc], how
    many there were on top of [len], and what follows them. *)
Fixpoint read_digits (s : string) (acc : Z) (len : nat) : Z * nat * string :=
  match s with
  | String.String c s' =>
      match digit_of c with
      | Some d => read_digits s' (10 * acc + d)%Z (S len)
      | None => (acc, len, s)
      end
  | EmptyString => (acc, len, s)
  end.

Definition unsigned_decimal (s : string) : option Qc :=
  let '(i, ni, rest) := read_digits s 0%Z 0%nat in
  match rest with
  | String.String "."%char frac =>
      let '(f, nf, tail) := read_digits frac 0%Z 0%nat in
      if all_blank tail && negb (Nat.eqb (ni + nf) 0) then
        Some (Q2Qc (inject_Z i + Qmake f (Pos.pow 10 (Pos.of_nat nf))))
      else None
  | _ =>
      if all_blank rest && negb (Nat.eqb ni 0) then Some (Q2Qc (inject_Z i))
      else None
  end.

Definition unsigned_literal (s : string) : number :=
  if String.prefix "Infinity" s
     && all_blank (String.substring 8 (String.length s - 8) s)
  then Inf false
  else match unsigned_decimal s with
       | Some q => Fin q
       | None => NaN
       end.

Definition decimalLiteral (s : string) : number :=
  match skip_blanks s with
  | EmptyString => zero
  | String.String "-"%char s' => nmul (Fin (Q2Qc (-1))) (unsigned_literal s')
  | String.String "+"%char s' => unsigned_literal s'
  | s' => unsigned_literal s'
  end.

(* ================================================================== *)
(** ** Holdings, metrics and the component state                       *)
(* ================================================================== *)

(** A holding object, and also the shape of the two form buffers
    ([newStock] has no [id] and no [current_price]). *)
Record stock : Type := mkStock {
  id : value;
  name : value;
  ticker : value;
  quantity : value;
  buyPrice : value;
  current_price : value
}.

(** An element of [portfolioDistribution]: [{...stock, percentage}]. *)
Record share : Type := mkShare {
  share_of : stock;
  percentage : number
}.

(** The object passed to [setPortfolioMetrics]. *)
Record metrics : Type := mkMetrics {
  totalValue : number;
  topStock : option stock;
  portfolioDistribution : list share
}.

(** The [useState] cells of the component; [None] stands for [null]. *)
Record state : Type := mkState {
  stocks : list stock;
  newStock : stock;
  editStock : option stock;
  loading : bool;
  error : option string;
  portfolioMetrics : option metrics;
  isMetricsLoading : bool
}.

(** The add form with its four fields holding the empty string. *)
Definition blankForm : stock :=
  mkStock Undefined (Str EmptyString) (Str EmptyString) (Str EmptyString)
          (Str EmptyString) Undefined.

(** The state of the first render. *)
Definition initialState : state :=
  mkState [] blankForm None true None
          (Some (mkMetrics zero None [])) true.

(** Requests sent to the remote store and what comes back: the promise
    is rejected, or resolved with [response.data]. *)
Inductive request : Type :=
| POST (body : stock)
| PUT (target : value) (body : stock)
| DELETE (target : value).

Inductive reply : Type :=
| Rejected
| Resolved (data : stock).

(** [response.data] of the initial GET: an array of holdings, or a value
    for which [Array.isArray] is false. *)
Inductive payload : Type :=
| Records (data : list stock)
| NotAnArray (data : value).

(** The [name] attribute of the four inputs of the form. *)
Inductive field : Type :=
| name_input
| ticker_input
| quantity_input
| buyPrice_input.

(** What a handler acts on: the component state and the requests sent
    so far. *)
Record world : Type := mkWorld {
  ui : state;
  sent : list request
}.

(** *** Handler computations: state, plus an exception that unwinds to
    the enclosing [try]. *)

Definition M (A : Type) : Type := world -> option A * world.

Definition ret {A} (a : A) : M A := fun w => (Some a, w).

Definition bind {A B} (m : M A) (k : A -> M B) : M B :=
  fun w =>
    match m w with
    | (Some a, w') => k a w'
    | (None, w') => (None, w')
    end.

Definition try_catch {A} (body handler : M A) : M A :=
  fun w =>
    match body w with
    | (Some a, w') => (Some a, w')
    | (None, w') => handler w'
    end.

(** [throw new Error(...)]. *)
Definition throw {A} : M A := fun w => (None, w).

(** [try { body } finally { final }]: [final] runs whatever [body] did,
    and the outcome of [body] stands unless [final] throws. *)
Definition try_finally {A} (body : M A) (final : M unit) : M A :=
  fun w =>
    match body w with
    | (outcome, w') =>
        match final w' with
        | (Some _, w'') => (outcome, w'')
        | (None, w'') => (None, w'')
        end
    end.

Declare Scope handler_scope.
Delimit Scope handler_scope with handler.
Notation "x <- m ;; k" := (bind m (fun x => k))
  (at level 100, m at next level, right associativity) : handler_scope.
Notation "m ;; k" := (bind m (fun _ => k))
  (at level 100, right associativity) : handler_scope.
Notation "'try' body 'catch' handler" := (try_catch body handler)
  (at level 100, body at level 200, handler at level 200) : handler_scope.
Local Open Scope handler_scope.

Definition modify (f : state -> state) : M unit :=
  fun w => (Some tt, mkWorld (f (ui w)) (sent w)).

Definition setStocks (v : list stock) : M unit :=
  modify (fun s => mkState v (newStock s) (editStock s) (loading s)
                           (error s) (portfolioMetrics s) (isMetricsLoading s)).

Definition setNewStock (v : stock) : M unit :=
  modify (fun s => mkState (stocks s) v (editStock s) (loading s)
                           (error s) (portfolioMetrics s) (isMetricsLoading s)).

Definition setEditStock (v : option stock) : M unit :=
  modify (fun s => mkState (stocks s) (newStock s) v (loading s)
                           (error s) (portfolioMetrics s) (isMetricsLoading s)).

Definition setError (v : option string) : M unit :=
  modify (fun s => mkState (stocks s) (newStock s) (editStock s) (loading s)
                           v (portfolioMetrics s) (isMetricsLoading s)).

Definition setPortfolioMetrics (v : option metrics) : M unit :=
  modify (fun s => mkState (stocks s) (newStock s) (editStock s) (loading s)
                           (error s) v (isMetricsLoading s)).

Definition setIsMetricsLoading (v : bool) : M unit :=
  modify (fun s => mkState (stocks s) (newStock s) (editStock s) (loading s)
                           (error s) (portfolioMetrics s) v).

Definition setLoading (v : bool) : M unit :=
  modify (fun s => mkState (stocks s) (newStock s) (editStock s) v
                           (error s) (portfolioMetrics s) (isMetricsLoading s)).

(** [{ ...s, [f]: v }] for the name [f] of an input. *)
Definition set_field (s : stock) (f : field) (v : value) : stock :=
  match f with
  | name_input =>
      mkStock (id s) v (ticker s) (quantity s) (buyPrice s) (current_price s)
  | ticker_input =>
      mkStock (id s) (name s) v (quantity s) (buyPrice s) (current_price s)
  | quantity_input =>
      mkStock (id s) (name s) (ticker s) v (buyPrice s) (current_price s)
  | buyPrice_input =>
      mkStock (id s) (name s) (ticker s) (quantity s) v (current_price s)
  end.

(** The object without any field, [{}]. *)
Definition noFields : stock :=
  mkStock Undefined Undefined Undefined Undefined Undefined Undefined.

(* ================================================================== *)
(** ** The metrics computation on IEEE doubles                         *)
(* ================================================================== *)

Module Doubles.

Import PrimFloat.

(** A holding whose quantity and current price are numbers; the fields
    the metrics computation does not read are left out. *)
Record stock : Type := mkStock {
  name : string;
  quantity : float;
  current_price : float
}.

Record share : Type := mkShare {
  share_of : stock;
  percentage : float
}.

Record metrics : Type := mkMetrics {
  totalValue : float;
  topStock : option stock;
  portfolioDistribution : list share
}.

(** [stocks.filter(stock => stock.current_price > 0 && stock.quantity > 0)] *)
Definition validStocks (l : list stock) : list stock :=
  filter (fun stock => (0 <? current_price stock)%float
                       && (0 <? quantity stock)%float) l.

(** The body of [fetchPortfolioMetrics]: the value it hands to
    [setPortfolioMetrics], [None] for [null]. *)
Definition fetchPortfolioMetrics (stocks : list stock) : option metrics :=
  if (0 <? List.length stocks)%nat then
    let validStocks := validStocks stocks in
    let totalValue :=
      fold_left (fun acc stock =>
                   (acc + current_price stock * quantity stock)%float)
                validStocks 0%float in
    let topStock :=
      fold_left
        (fun top stock =>
           match top with
           | None => Some stock
           | Some t =>
               if (current_price t <? current_price stock)%float
               then Some stock else top
           end)
        validStocks None in
    let portfolioDistribution :=
      map (fun stock =>
             mkShare stock
               (current_price stock * quantity stock / totalValue * 100)%float)
          validStocks in
    Some (mkMetrics totalValue topStock portfolioDistribution)
  else None.

(** The double that the literal [1e-200] denotes. *)
Definition tiny_amount : float := 0x1.87e92154ef7acp-665%float.

(** A holding with that price and that quantity. *)
Definition tiny : stock := mkStock "Tiny" tiny_amount tiny_amount.

End Doubles.

Section Dashboard.

(** The runtime's conversion of a string to a number. *)
Variable StringToNumber : string -> number.

Definition ToNumber (v : value) : number :=
  match v with
  | Undefined => NaN
  | Null => zero
  | Boolean b => if b then Fin (Q2Qc 1) else zero
  | Number n => n
  | Str s => StringToNumber s
  end.

(** Truthiness, as tested by [!v] and [v && ...]. *)
Definition ToBoolean (v : value) : bool :=
  match v with
  | Undefined | Null => false
  | Boolean b => b
  | Number NaN => false
  | Number (Inf _) => true
  | Number (Fin q) => negb (Qceqb q (Q2Qc 0))
  | Str s => negb (String.eqb s EmptyString)
  end.

(** IsLessThan: two strings are compared as strings, anything else as
    numbers. *)
Definition IsLessThan (x y : value) : option bool :=
  match x, y with
  | Str s, Str t =>
      Some (match String.compare s t with Lt => true | _ => false end)
  | _, _ => nlt (ToNumber x) (ToNumber y)
  end.

(** [x > y]. *)
Definition js_gt (x y : value) : bool :=
  match IsLessThan y x with Some b => b | None => false end.

(** [x <= y]. *)
Definition js_le (x y : value) : bool :=
  match IsLessThan y x with Some b => negb b | None => false end.

(** [x === y]. *)
Definition strict_eq (x y : value) : bool :=
  match x, y with
  | Undefined, Undefined => true
  | Null, Null => true
  | Boolean a, Boolean b => Bool.eqb a b
  | Number (Fin p), Number (Fin q) => Qceqb p q
  | Number (Inf a), Number (Inf b) => Bool.eqb a b
  | Str s, Str t => String.eqb s t
  | _, _ => false
  end.

(* ================================================================== *)
(** ** The metrics computation                                         *)
(* ================================================================== *)

(** [stocks.filter(stock => stock.current_price > 0 && stock.quantity > 0)] *)
Definition validStocks (l : list stock) : list stock :=
  filter (fun stock => js_gt (current_price stock) (Number zero)
                       && js_gt (quantity stock) (Number zero)) l.

(** [stock.current_price * stock.quantity] *)
Definition position (stock : stock) : number :=
  nmul (ToNumber (current_price stock)) (ToNumber (quantity stock)).

Definition fetchPortfolioMetrics (stocks : list stock) : M unit :=
  setIsMetricsLoading true ;;
  (if (0 <? List.length stocks)%nat then
     let validStocks := validStocks stocks in
     let totalValue :=
       fold_left (fun acc stock => nadd acc (position stock)) validStocks zero in
     let topStock :=
       fold_left
         (fun top stock =>
            match top with
            | None => Some stock
            | Some t =>
                if js_gt (current_price stock) (current_price t)
                then Some stock else top
            end)
         validStocks None in
     let portfolioDistribution :=
       map (fun stock =>
              mkShare stock (nmul (ndiv (position stock) totalValue) hundred))
           validStocks in
     setPortfolioMetrics
       (Some (mkMetrics totalValue topStock portfolioDistribution))
   else
     setPortfolioMetrics None) ;;
  setIsMetricsLoading false.

(* ================================================================== *)
(** ** The chart adapter                                               *)
(* ================================================================== *)

(** The string [hsl(<hue>, 70%, 60%)], kept as its three components. *)
Record color : Type := hsl {
  hue : number;
  saturation : nat;
  lightness : nat
}.

Record dataset : Type := mkDataset {
  data : list number;
  backgroundColor : list color;
  hoverOffset : nat
}.

(** What [pieChartData] returns: the empty object [{}] or an object with
    [labels] and [datasets]. *)
Inductive chart : Type :=
| EmptyObject
| ChartData (labels : list value) (datasets : list dataset).

(** [Math_random k] is the result of the [k]-th call of [Math.random]
    made while the memo is evaluated. *)
Variable Math_random : nat -> number.

Definition pieChartData (portfolioMetrics : option metrics) : chart :=
  match portfolioMetrics with
  | Some m =>
      if (0 <? List.length (portfolioDistribution m))%nat then
        ChartData
          (map (fun stock => name (share_of stock)) (portfolioDistribution m))
          [ mkDataset
              (map (fun stock => percentage stock) (portfolioDistribution m))
              (map (fun k => hsl (nmul (Math_random k) (Fin (Q2Qc 360))) 70 60)
                   (seq 0 (List.length (portfolioDistribution m))))
              4 ]
      else EmptyObject
  | None => EmptyObject
  end.

(* ================================================================== *)
(** ** The mutating handlers                                           *)
(* ================================================================== *)

(** The remote store: what it answers to a request. *)
Variable axios : request -> reply.

(** [await axios.<verb>(...)]: the request is sent; a rejected promise
    throws at the [await]. *)
Definition await (r : request) : M stock :=
  fun w =>
    let w' := mkWorld (ui w) (sent w ++ [r]) in
    match axios r with
    | Resolved d => (Some d, w')
    | Rejected => (None, w')
    end.

(** [{ ...s, current_price: v }] *)
Definition with_current_price (s : stock) (v : value) : stock :=
  mkStock (id s) (name s) (ticker s) (quantity s) (buyPrice s) v.

(** Each handler takes the render [r] whose closure it is: [stocks],
    [newStock] and [editStock] are the values of that render. *)

Definition handleAddStock (r : state) : M unit :=
  let stocks := stocks r in
  let newStock := newStock r in
  if negb (ToBoolean (name newStock)) || negb (ToBoolean (ticker newStock))
     || negb (ToBoolean (quantity newStock))
     || negb (ToBoolean (buyPrice newStock))
  then setError (Some "Please fill in all fields."%string)
  else if js_le (quantity newStock) (Number zero)
          || js_le (buyPrice newStock) (Number zero)
  then setError (Some "Quantity and Buy Price must be positive numbers."%string)
  else
    try
      (let stockWithPrice := with_current_price newStock Null in
       response <- await (POST stockWithPrice) ;;
       setStocks (stocks ++ [response]) ;;
       setNewStock blankForm ;;
       setError None ;;
       fetchPortfolioMetrics (stocks ++ [response]))
    catch
      (setError (Some "Failed to add stock."%string)).

Definition handleSaveEdit (r : state) : M unit :=
  let stocks := stocks r in
  match editStock r with
  | None => setError (Some "Please fill in all fields."%string)
  | Some editStock =>
      if negb (ToBoolean (name editStock)) || negb (ToBoolean (ticker editStock))
         || negb (ToBoolean (quantity editStock))
         || negb (ToBoolean (buyPrice editStock))
      then setError (Some "Please fill in all fields."%string)
      else if js_le (quantity editStock) (Number zero)
              || js_le (buyPrice editStock) (Number zero)
      then setError
             (Some "Quantity and Buy Price must be positive numbers."%string)
      else
        try
          (response <- await (PUT (id editStock) editStock) ;;
           setStocks
             (map (fun stock =>
                     if strict_eq (id stock) (id editStock)
                     then response else stock)
                  stocks) ;;
           setEditStock None ;;
           fetchPortfolioMetrics stocks)
        catch
          (setError (Some "Failed to update stock."%string))
  end.

Definition handleDeleteStock (r : state) (id0 : value) : M unit :=
  let stocks := stocks r in
  try
    (_ <- await (DELETE id0) ;;
     setStocks (filter (fun stock => negb (strict_eq (id stock) id0)) stocks) ;;
     fetchPortfolioMetrics
       (filter (fun stock => negb (strict_eq (id stock) id0)) stocks))
  catch
    (setError (Some "Failed to delete stock."%string)).

(** Running a handler from the render of state [s]: the state it leaves
    and the requests it sent. *)
Definition dispatch (h : state -> M unit) (s : state) : world :=
  snd (h s (mkWorld s [])).

(* ================================================================== *)
(** ** The initial load and the handlers of the edit buffer            *)
(* ================================================================== *)

(** [await axios.get(...)] with outcome [get]. *)
Definition awaitGet (get : option payload) : M payload := fun w => (get, w).

(** The effect of the first render.  [get] is the outcome of
    [await axios.get(...)]: [None] when the promise is rejected.  The
    GET is not one of the mutating requests that [sent] lists. *)
Definition fetchStocks (get : option payload) : M unit :=
  try_finally
    (try
       (response <- awaitGet get ;;
        match response with
        | Records data => setStocks data ;; fetchPortfolioMetrics data
        | NotAnArray _ => throw
        end)
     catch
       (setError (Some "Failed to fetch stock data."%string)))
    (setLoading false).

(** [setEditStock({ ...stock })] *)
Definition handleEditStock (stock0 : stock) : M unit :=
  setEditStock (Some stock0).

(** [setEditStock({ ...editStock, [e.target.name]: e.target.value })];
    spreading [null] gives the object without fields, and the value of
    an input is a string. *)
Definition handleEditChange (r : state) (e_name : field) (e_value : string)
  : M unit :=
  setEditStock
    (Some (set_field (match editStock r with Some e => e | None => noFields end)
                     e_name (Str e_value))).

(** [setEditStock(null)] *)
Definition handleCancelEdit : M unit := setEditStock None.

(** The [onChange] of the four inputs while nothing is edited:
    [setNewStock({ ...newStock, <input>: e.target.value })]. *)
Definition handleNewChange (r : state) (e_name : field) (e_value : string)
  : M unit :=
  setNewStock (set_field (newStock r) e_name (Str e_value)).

(* ================================================================== *)
(** ** What the component renders                                      *)
(* ================================================================== *)

(** The element tree the component returns, kept as the data that
    decides what is displayed; markup and class names are left out, and
    the two-decimal text of the total is kept as the number it prints. *)

Inductive card_actions : Type :=
| SaveCancel
| EditDelete.

Record card : Type := mkCard {
  card_of : stock;
  (** [stock.current_price || "Fetching..."] *)
  card_price : value;
  card_buttons : card_actions
}.

Inductive distribution_panel : Type :=
| MetricsLoading
| PieChart (data : chart)
| NoStocksInPortfolio.

(** An empty list of cards stands for the text "No stocks available.";
    [form_editing] selects the title and the button of the form (edit
    and save, or add), [form_values] is the buffer the inputs show. *)
Inductive body : Type :=
| LoadingStocks
| Loaded (total : number) (top : option (value * value))
         (distribution : distribution_panel) (cards : list card)
         (form_editing : bool) (form_values : stock).

Record view : Type := mkView {
  banner : option string;
  content : body
}.

(** One render; [None] is the TypeError of reading [totalValue] of
    [null]. *)
Definition render (s : state) : option view :=
  let banner :=
    match error s with
    | Some msg => if String.eqb msg EmptyString then None else Some msg
    | None => None
    end in
  if loading s then Some (mkView banner LoadingStocks)
  else
    match portfolioMetrics s with
    | None => None
    | Some m =>
        Some
          (mkView banner
             (Loaded
                (totalValue m)
                (match topStock m with
                 | Some t => Some (name t, current_price t)
                 | None => None
                 end)
                (if isMetricsLoading s then MetricsLoading
                 else if (0 <? List.length (portfolioDistribution m))%nat
                      then PieChart (pieChartData (portfolioMetrics s))
                      else NoStocksInPortfolio)
                (map (fun stock =>
                        mkCard stock
                          (if ToBoolean (current_price stock)
                           then current_price stock
                           else Str "Fetching...")
                          (if strict_eq
                                (match editStock s with
                                 | Some e => id e
                                 | None => Undefined
                                 end)
                                (id stock)
                           then SaveCancel else EditDelete))
                     (stocks s))
                (match editStock s with Some _ => true | None => false end)
                (match editStock s with Some e => e | None => newStock s end)))
    end.

(* ================================================================== *)
(** ** The vocabulary of the specification                             *)
(* ================================================================== *)

(** A number that is strictly greater than zero. *)
Definition positive (n : number) : bool :=
  match n with
  | NaN => false
  | Inf neg => negb neg
  | Fin q => Qcltb (Q2Qc 0) q
  end.

(** An eligible holding: its current price is set and strictly positive
    and its quantity is strictly positive.  An unset price ([null] or a
    missing field) converts to zero or to NaN, neither of which is
    positive. *)
Definition eligible (s : stock) : bool :=
  positive (ToNumber (current_price s)) && positive (ToNumber (quantity s)).

(** The sum of a sequence of numbers. *)
Definition sum_of (l : list number) : number := fold_right nadd zero l.

(** The canonical empty metrics value. *)
Definition emptyMetrics : metrics := mkMetrics zero None [].

(** The metrics stored by a run of [fetchPortfolioMetrics] that starts
    from the first render. *)
Definition storedMetrics (l : list stock) : option metrics :=
  portfolioMetrics (ui (snd (fetchPortfolioMetrics l (mkWorld initialState [])))).

(** What the specification asks of the metrics of a collection [l]: a
    metrics value exists, its total is the sum of the positions of the
    eligible holdings, its distribution lists exactly the eligible
    holdings in input order, and its top holding, when present, is one
    of them. *)
Definition reflects_eligible (l : list stock) (pm : option metrics) : Prop :=
  exists m,
    pm = Some m
    /\ totalValue m = sum_of (map position (filter eligible l))
    /\ map share_of (portfolioDistribution m) = filter eligible l
    /\ (forall h, topStock m = Some h -> In h (filter eligible l)).

(** The callback of the reduction that selects the top holding. *)
Definition keep_top (top : option stock) (candidate : stock) : option stock :=
  match top with
  | None => Some candidate
  | Some t =>
      if js_gt (current_price candidate) (current_price t)
      then Some candidate else top
  end.

(** The strict order of numbers, and the order with equality. *)
Definition below (x y : number) : Prop := nlt x y = Some true.
Definition not_above (x y : number) : Prop := nlt y x = Some false.

(** The price of a holding as a number. *)
Definition price (s : stock) : number := ToNumber (current_price s).

(** [h] is the first holding of [vs] whose price is the greatest: the
    holdings before it are strictly cheaper, those after it are not
    dearer. *)
Definition first_greatest (vs : list stock) (h : stock) : Prop :=
  exists before after,
    vs = before ++ h :: after
    /\ (forall x, In x before -> below (price x) (price h))
    /\ (forall x, In x after -> not_above (price x) (price h)).

(** The sum of a sequence of rationals. *)
Definition qsum (l : list Qc) : Qc := fold_right Qcplus (Q2Qc 0) l.

(** A price that is not text: a number, or unset. *)
Definition numeric_price (s : stock) : Prop :=
  match current_price s with
  | Str _ => False
  | _ => True
  end.

(** Neither price nor quantity is an infinity: the holding stays within
    exact rational arithmetic. *)
Definition finite (n : number) : Prop :=
  match n with Inf _ => False | _ => True end.

Definition finite_holding (s : stock) : Prop :=
  finite (ToNumber (current_price s)) /\ finite (ToNumber (quantity s)).

(** A form field that is missing or empty. *)
Definition missing (v : value) : Prop :=
  v = Undefined \/ v = Null \/ v = Str EmptyString.

(** A form field whose numeric value is at most zero. *)
Definition at_most_zero (v : value) : Prop :=
  match ToNumber v with
  | NaN => False
  | Inf neg => neg = true
  | Fin q => (q <= Q2Qc 0)%Qc
  end.

(** The two messages of the client-side checks. *)
Definition validation_message (e : option string) : Prop :=
  e = Some "Please fill in all fields."%string
  \/ e = Some "Quantity and Buy Price must be positive numbers."%string.

(** [s] with its error cell replaced. *)
Definition with_error (s : state) (e : option string) : state :=
  mkState (stocks s) (newStock s) (editStock s) (loading s) e
          (portfolioMetrics s) (isMetricsLoading s).

(** The outcome of a handler whose remote call failed: collection and
    metrics as rendered, and [msg] in the error banner. *)
Definition failed_with (r : state) (msg : string) (w : world) : Prop :=
  stocks (ui w) = stocks r
  /\ portfolioMetrics (ui w) = portfolioMetrics r
  /\ error (ui w) = Some msg.

(** The distribution a metrics cell holds, empty when the cell is [null]. *)
Definition distribution_of (pm : option metrics) : list share :=
  match pm with
  | Some m => portfolioDistribution m
  | None => []
  end.

(** The metrics cell holds the metrics of the collection cell. *)
Definition consistent (s : state) : Prop :=
  portfolioMetrics s = storedMetrics (stocks s).

(** A form buffer that passes the two client-side checks, said without
    the code's comparisons: the four fields are truthy and neither
    quantity nor buy price is at most zero. *)
Definition acceptable (f : stock) : Prop :=
  ToBoolean (name f) = true /\ ToBoolean (ticker f) = true
  /\ ToBoolean (quantity f) = true /\ ToBoolean (buyPrice f) = true
  /\ ~ at_most_zero (quantity f) /\ ~ at_most_zero (buyPrice f).

(** The events that touch the two form buffers only. *)
Inductive local_event : Type :=
| ClickEdit (stock0 : stock)
| TypeInEdit (e_name : field) (e_value : string)
| ClickCancel
| TypeInNew (e_name : field) (e_value : string).

(** The handler of a local event, in the render [r]. *)
Definition local_handler (ev : local_event) (r : state) : M unit :=
  match ev with
  | ClickEdit stock0 => handleEditStock stock0
  | TypeInEdit f v => handleEditChange r f v
  | ClickCancel => handleCancelEdit
  | TypeInNew f v => handleNewChange r f v
  end.

(** Typing into an input of the form while a holding is being edited. *)
Definition is_typing_in_edit (ev : local_event) : Prop :=
  match ev with
  | TypeInEdit _ _ => True
  | _ => False
  end.

(** A sequence of local events, each handled in the render that follows
    the previous one. *)
Definition replay (evs : list local_event) (w : world) : world :=
  fold_left (fun w ev => snd (local_handler ev (ui w) w)) evs w.

(* ================================================================== *)
(** ** Sample holdings, states and remote stores                       *)
(* ================================================================== *)

Definition num (z : Z) : value := Number (Fin (Q2Qc (inject_Z z))).

Definition acme : stock :=
  mkStock (num 1) (Str "Acme") (Str "ACM") (num 2) (num 5) (num 10).

Definition bolt : stock :=
  mkStock (num 2) (Str "Bolt") (Str "BLT") (num 1) (num 20) (num 30).

(** A holding the remote store has not priced yet. *)
Definition cord : stock :=
  mkStock (num 3) (Str "Cord") (Str "CRD") (num 5) (num 7) Null.

(** A holding at the price of [bolt]. *)
Definition dart : stock :=
  mkStock (num 4) (Str "Dart") (Str "DRT") (num 3) (num 25) (num 30).

(** Two holdings whose prices arrived as text. *)
Definition nine : stock :=
  mkStock (num 5) (Str "Nine") (Str "NIN") (num 1) (num 1) (Str "9").

Definition ten : stock :=
  mkStock (num 6) (Str "Ten") (Str "TEN") (num 1) (num 1) (Str "10").

(** [acme] after its quantity was edited from 2 to 3. *)
Definition acme_edited : stock :=
  mkStock (num 1) (Str "Acme") (Str "ACM") (num 3) (num 5) (num 10).

(** A remote store that rejects every request, and one that resolves
    every request with [d]. *)
Definition refusing : request -> reply := fun _ => Rejected.
Definition answering (d : stock) : request -> reply := fun _ => Resolved d.

(** A source of random draws that always answers one half. *)
Definition halves : nat -> number := fun _ => Fin (Q2Qc (1 # 2)).

(** A render showing [l], with [form] typed into the add form, [edit] in
    the edit buffer and [e] in the error banner. *)
Definition rendered (l : list stock) (form : stock) (edit : option stock)
    (e : option string) : state :=
  mkState l form edit false e (Some emptyMetrics) false.

(** The add form filled with text, as the inputs deliver it. *)
Definition typed (n t q b : string) : stock :=
  mkStock Undefined (Str n) (Str t) (Str q) (Str b) Undefined.

(* ================================================================== *)
(** ** Arithmetic of numbers                                           *)
(* ================================================================== *)

Lemma Qcltb_lt (x y : Qc) : Qcltb x y = true <-> (x < y)%Qc.
Proof.
  unfold Qcltb. rewrite Qclt_alt.
  destruct (x ?= y)%Qc; split; congruence.
Qed.

Lemma Qceqb_eq (x y : Qc) : Qceqb x y = true <-> x = y.
Proof.
  unfold Qceqb. rewrite Qceq_alt.
  destruct (x ?= y)%Qc; split; congruence.
Qed.

Lemma Qcmult_pos (p q : Qc) : (0 < p -> 0 < q -> 0 < p * q)%Qc.
Proof.
  intros Hp Hq.
  replace (Q2Qc 0) with (0 * q)%Qc by ring.
  now apply Qcmult_lt_compat_r.
Qed.

Lemma Qcplus_pos (p q : Qc) : (0 < p -> 0 < q -> 0 < p + q)%Qc.
Proof.
  intros Hp Hq. apply Qclt_trans with p; [assumption|].
  apply Qclt_minus_iff.
  now replace (p + q + - p)%Qc with q by ring.
Qed.

Lemma nadd_assoc (x y z : number) : nadd x (nadd y z) = nadd (nadd x y) z.
Proof.
  destruct x as [|a|p], y as [|b|q], z as [|c|r]; simpl; try reflexivity;
    try (destruct a, b; reflexivity);
    try (destruct b, c; reflexivity);
    try (destruct a, c; reflexivity).
  - destruct a, b, c; reflexivity.
  - f_equal. ring.
Qed.

Lemma nadd_zero_l (x : number) : nadd zero x = x.
Proof. destruct x; simpl; try reflexivity. f_equal. ring. Qed.

Lemma nadd_zero_r (x : number) : nadd x zero = x.
Proof. destruct x; simpl; try reflexivity. f_equal. ring. Qed.

(* ================================================================== *)
(** ** The metrics computation: what is stored                         *)
(* ================================================================== *)

Lemma js_gt_zero (v : value) :
  js_gt v (Number zero) = positive (ToNumber v).
Proof.
  unfold js_gt, IsLessThan.
  destruct v as [| |b|n|t]; simpl; try reflexivity.
  - destruct b; reflexivity.
  - destruct n; reflexivity.
  - destruct (StringToNumber t); reflexivity.
Qed.

(** The filter of the code keeps exactly the eligible holdings. *)
Lemma validStocks_eligible (l : list stock) :
  validStocks l = filter eligible l.
Proof.
  unfold validStocks. apply filter_ext. intro a.
  unfold eligible. now rewrite !js_gt_zero.
Qed.

(** A run of [fetchPortfolioMetrics] never throws, sends nothing, and
    writes two cells only: the metrics, which depend on the argument
    alone, and the loading flag, which it leaves [false]. *)
Lemma fetchPortfolioMetrics_run (l : list stock) (w : world) :
  fetchPortfolioMetrics l w =
  (Some tt,
   mkWorld (mkState (stocks (ui w)) (newStock (ui w)) (editStock (ui w))
                    (loading (ui w)) (error (ui w)) (storedMetrics l) false)
           (sent w)).
Proof.
  unfold storedMetrics, fetchPortfolioMetrics, bind, setIsMetricsLoading,
    setPortfolioMetrics, modify.
  destruct (0 <? List.length l)%nat; reflexivity.
Qed.

Lemma storedMetrics_nil : storedMetrics [] = None.
Proof. reflexivity. Qed.

Lemma storedMetrics_cons (a : stock) (l : list stock) :
  storedMetrics (a :: l) =
  let vs := validStocks (a :: l) in
  let total := fold_left (fun acc stock => nadd acc (position stock)) vs zero in
  Some (mkMetrics total
          (fold_left
             (fun top stock =>
                match top with
                | None => Some stock
                | Some t =>
                    if js_gt (current_price stock) (current_price t)
                    then Some stock else top
                end) vs None)
          (map (fun stock =>
                  mkShare stock (nmul (ndiv (position stock) total) hundred))
               vs)).
Proof. reflexivity. Qed.

Lemma fold_left_positions (vs : list stock) (acc : number) :
  fold_left (fun acc stock => nadd acc (position stock)) vs acc =
  fold_left nadd (map position vs) acc.
Proof.
  revert acc. induction vs as [|a vs IH]; intro acc; simpl; [reflexivity|].
  apply IH.
Qed.

Lemma total_is_sum (vs : list stock) :
  fold_left (fun acc stock => nadd acc (position stock)) vs zero =
  sum_of (map position vs).
Proof.
  rewrite fold_left_positions. unfold sum_of.
  apply fold_symmetric.
  - intros x y z. apply nadd_assoc.
  - intro y. now rewrite nadd_zero_l, nadd_zero_r.
Qed.

Lemma keep_top_member (vs : list stock) (top : option stock) (h : stock) :
  fold_left keep_top vs top = Some h -> top = Some h \/ In h vs.
Proof.
  revert top. induction vs as [|a vs IH]; intros top H; simpl in *.
  - now left.
  - apply IH in H. destruct H as [H|H]; [|now right; right].
    unfold keep_top in H. destruct top as [t|].
    + destruct (js_gt (current_price a) (current_price t)).
      * injection H as <-. right. now left.
      * now left.
    + injection H as <-. right. now left.
Qed.

Lemma shares_of_distribution (vs : list stock) (f : stock -> number) :
  map share_of (map (fun stock => mkShare stock (f stock)) vs) = vs.
Proof.
  rewrite map_map. simpl. apply map_id.
Qed.

(** The positions of eligible holdings are positive, and so is their
    total as soon as there is one. *)
Lemma positive_nmul (x y : number) :
  positive x = true -> positive y = true -> positive (nmul x y) = true.
Proof.
  destruct x as [|a|p], y as [|b|q]; simpl; try discriminate.
  - destruct a, b; simpl; congruence.
  - intros Ha Hq. apply Qcltb_lt, Qcgt_alt in Hq.
    destruct a; [discriminate|]. simpl. now rewrite Hq.
  - intros Hp Hb. apply Qcltb_lt, Qcgt_alt in Hp.
    destruct b; [discriminate|]. simpl. now rewrite Hp.
  - intros Hp Hq. apply Qcltb_lt in Hp, Hq. apply Qcltb_lt.
    now apply Qcmult_pos.
Qed.

Lemma positive_nadd (x y : number) :
  positive x = true -> positive y = true -> positive (nadd x y) = true.
Proof.
  destruct x as [|a|p], y as [|b|q]; simpl; try discriminate; try tauto.
  - destruct a, b; simpl; congruence.
  - intros Hp Hq. apply Qcltb_lt in Hp, Hq. apply Qcltb_lt.
    now apply Qcplus_pos.
Qed.

Lemma positive_position (s : stock) :
  eligible s = true -> positive (position s) = true.
Proof.
  unfold eligible, position. intro H.
  apply andb_true_iff in H. destruct H. now apply positive_nmul.
Qed.

Lemma positive_fold (ps : list number) (acc : number) :
  positive acc = true -> Forall (fun p => positive p = true) ps ->
  positive (fold_left nadd ps acc) = true.
Proof.
  revert acc. induction ps as [|p ps IH]; intros acc Hacc Hps; simpl.
  - assumption.
  - inversion Hps; subst. apply IH; [|assumption]. now apply positive_nadd.
Qed.

Lemma positive_total (vs : list stock) :
  vs <> [] -> Forall (fun s => eligible s = true) vs ->
  positive (fold_left (fun acc stock => nadd acc (position stock)) vs zero)
  = true.
Proof.
  intros Hne Hall. rewrite fold_left_positions.
  destruct vs as [|a vs]; [congruence|]. cbn [map fold_left].
  inversion Hall; subst.
  apply positive_fold.
  - rewrite nadd_zero_l. now apply positive_position.
  - apply Forall_map. eapply Forall_impl; [|eassumption].
    intros s Hs. now apply positive_position.
Qed.

Lemma filter_all_eligible (l : list stock) :
  Forall (fun s => eligible s = true) (filter eligible l).
Proof. apply Forall_forall. intros x Hx. now apply filter_In in Hx. Qed.

Lemma positive_nonzero (n : number) : positive n = true -> n <> zero.
Proof. intros H E. subst n. vm_compute in H. discriminate. Qed.

(* ================================================================== *)
(** ** Properties of the metrics computation                           *)
(* ================================================================== *)

(** For a collection without eligible holdings the computation stores the canonical empty metrics value (total zero, no
    top holding, empty distribution) when the collection is not empty,
    and stores no metrics value at all ([null]) when the collection is
    empty; in both cases it leaves the loading flag off, whereas the
    state of the first render has it on. *)
Theorem no_eligible_metrics (l : list stock) (w : world) :
  filter eligible l = [] ->
  let s := ui (snd (fetchPortfolioMetrics l w)) in
  portfolioMetrics s
  = match l with [] => None | _ :: _ => Some emptyMetrics end
  /\ isMetricsLoading s = false
  /\ isMetricsLoading initialState = true.
Proof.
  intro H. rewrite fetchPortfolioMetrics_run. cbn [snd ui portfolioMetrics
    isMetricsLoading]. repeat split.
  destruct l as [|a l]; [reflexivity|].
  rewrite storedMetrics_cons. cbv zeta.
  now rewrite validStocks_eligible, H.
Qed.

(** For every collection that is not empty the stored metrics exclude the holdings that are not eligible: the total is the
    sum of price times quantity over the eligible holdings, the
    distribution lists exactly the eligible holdings in input order, and
    the top holding, when there is one, is eligible. *)
Theorem metrics_reflect_eligible (l : list stock) (w : world) :
  l <> [] ->
  reflects_eligible l (portfolioMetrics (ui (snd (fetchPortfolioMetrics l w)))).
Proof.
  intro Hne. rewrite fetchPortfolioMetrics_run. cbn [snd ui portfolioMetrics].
  destruct l as [|a l]; [congruence|].
  rewrite storedMetrics_cons. cbv zeta. rewrite validStocks_eligible.
  eexists. split; [reflexivity|]. cbn [totalValue portfolioDistribution topStock].
  split; [apply total_is_sum|].
  split; [apply shares_of_distribution|].
  intros h Hh. apply keep_top_member in Hh.
  destruct Hh as [Hh|Hh]; [discriminate|assumption].
Qed.

(** For every collection, once a metrics value is stored it excludes the
    holdings that are not eligible; a value is stored for every
    collection but the empty one. *)
Lemma stored_metrics_reflect_eligible (l : list stock) (w : world) (m : metrics) :
  portfolioMetrics (ui (snd (fetchPortfolioMetrics l w))) = Some m ->
  totalValue m = sum_of (map position (filter eligible l))
  /\ map share_of (portfolioDistribution m) = filter eligible l
  /\ (forall h, topStock m = Some h -> In h (filter eligible l)).
Proof.
  intro H. destruct l as [|a l].
  - rewrite fetchPortfolioMetrics_run in H. discriminate H.
  - destruct (metrics_reflect_eligible (a :: l) w) as [m' [E P]];
      [discriminate|].
    rewrite E in H. injection H as <-. exact P.
Qed.

(** In exact arithmetic, whenever a percentage is computed, that is
    whenever the distribution has an entry, the total every position is
    divided by is strictly positive, hence not zero. *)
Theorem total_nonzero_when_dividing (l : list stock) (w : world) (m : metrics) :
  portfolioMetrics (ui (snd (fetchPortfolioMetrics l w))) = Some m ->
  portfolioDistribution m <> [] ->
  positive (totalValue m) = true
  /\ totalValue m <> zero
  /\ Forall (fun sh =>
               percentage sh
               = nmul (ndiv (position (share_of sh)) (totalValue m)) hundred)
            (portfolioDistribution m).
Proof.
  rewrite fetchPortfolioMetrics_run. cbn [snd ui portfolioMetrics].
  destruct l as [|a l]; [discriminate|].
  rewrite storedMetrics_cons. cbv zeta. rewrite validStocks_eligible.
  generalize (filter_all_eligible (a :: l)).
  generalize (filter eligible (a :: l)). intros vs Hall H.
  injection H as <-.
  cbn [totalValue portfolioDistribution]. intro Hne.
  assert (Hpos : positive
            (fold_left (fun acc stock => nadd acc (position stock)) vs zero)
            = true).
  { apply positive_total; [|assumption].
    intro E. apply Hne. now rewrite E. }
  split; [assumption|]. split; [now apply positive_nonzero|].
  apply Forall_forall. intros sh Hsh.
  apply in_map_iff in Hsh. destruct Hsh as [s0 [<- _]]. reflexivity.
Qed.

(** *** The top holding *)

Lemma js_gt_numeric (a t : stock) :
  numeric_price a ->
  js_gt (current_price a) (current_price t)
  = match nlt (price t) (price a) with Some b => b | None => false end.
Proof.
  unfold numeric_price, js_gt, IsLessThan, price.
  destruct (current_price a); try contradiction;
    destruct (current_price t); reflexivity.
Qed.

Lemma positive_compares (x y : number) :
  positive x = true -> positive y = true ->
  exists b, nlt x y = Some b.
Proof.
  destruct x, y; simpl; try discriminate; eauto.
Qed.

Lemma Qcltb_false_le (p q : Qc) : Qcltb p q = false -> (q <= p)%Qc.
Proof.
  intro H. apply Qcnot_lt_le. intro L. apply Qcltb_lt in L. congruence.
Qed.

Lemma not_above_then_below (x t a : number) :
  not_above x t -> below t a -> below x a.
Proof.
  unfold not_above, below.
  destruct x as [|nx|p], t as [|nt|q], a as [|na|r]; simpl;
    try discriminate; intros H1 H2;
    try (destruct nx, nt, na; simpl in *; congruence);
    try (destruct nx, nt; simpl in *; congruence);
    try (destruct nx, na; simpl in *; congruence);
    try (destruct nt, na; simpl in *; congruence);
    try (destruct nx; simpl in *; congruence);
    try (destruct nt; simpl in *; congruence);
    try (destruct na; simpl in *; congruence).
  injection H1 as H1. injection H2 as H2. f_equal.
  apply Qcltb_false_le in H1. apply Qcltb_lt in H2. apply Qcltb_lt.
  eapply Qcle_lt_trans; eassumption.
Qed.

Lemma below_not_above (x y : number) : below x y -> not_above x y.
Proof.
  unfold not_above, below.
  destruct x as [|nx|p], y as [|ny|q]; simpl; try discriminate; intro H;
    try (destruct nx, ny; simpl in *; congruence);
    try (destruct nx; simpl in *; congruence);
    try (destruct ny; simpl in *; congruence).
  injection H as H. f_equal. apply Qcltb_lt in H.
  destruct (Qcltb q p) eqn:E; [|reflexivity].
  apply Qcltb_lt in E. exfalso.
  exact (Qclt_not_le _ _ H (Qclt_le_weak _ _ E)).
Qed.

Lemma not_above_refl (x : number) : positive x = true -> not_above x x.
Proof.
  unfold not_above. destruct x as [|n|q]; simpl; try discriminate; intros _.
  - now destruct n.
  - f_equal. unfold Qcltb. now rewrite (proj1 (Qceq_alt q q) eq_refl).
Qed.

Lemma keep_top_scan (vs done : list stock) (t h : stock) :
  Forall (fun s => numeric_price s /\ positive (price s) = true) vs ->
  positive (price t) = true ->
  first_greatest done t ->
  fold_left keep_top vs (Some t) = Some h ->
  first_greatest (done ++ vs) h.
Proof.
  revert done t. induction vs as [|a vs IH]; intros done t Hvs Ht Hdone Hfold.
  - simpl in Hfold. injection Hfold as <-. now rewrite app_nil_r.
  - inversion Hvs as [|? ? [Hnum Hpos] Hvs']; subst.
    cbn [fold_left keep_top] in Hfold.
    rewrite (js_gt_numeric a t Hnum) in Hfold.
    destruct (positive_compares _ _ Ht Hpos) as [b Hb].
    rewrite Hb in Hfold.
    replace (done ++ a :: vs) with ((done ++ [a]) ++ vs)
      by (now rewrite <- app_assoc).
    destruct Hdone as [before [after [Hsplit [Hbefore Hafter]]]].
    destruct b.
    + apply (IH (done ++ [a]) a Hvs' Hpos); [|assumption].
      exists done, []. split; [reflexivity|]. split; [|intros x []].
      intros x Hx. apply not_above_then_below with (price t); [|exact Hb].
      subst done. apply in_app_or in Hx. destruct Hx as [Hx|[<-|Hx]].
      * now apply below_not_above, Hbefore.
      * now apply not_above_refl.
      * now apply Hafter.
    + apply (IH (done ++ [a]) t Hvs' Ht); [|assumption].
      exists before, (after ++ [a]). split.
      * subst done. now rewrite <- app_assoc.
      * split; [assumption|].
        intros x Hx. apply in_app_or in Hx. destruct Hx as [Hx|[<-|[]]].
        -- now apply Hafter.
        -- exact Hb.
Qed.

Lemma keep_top_some (vs : list stock) (t : stock) :
  exists h, fold_left keep_top vs (Some t) = Some h.
Proof.
  revert t. induction vs as [|a vs IH]; intro t; simpl; [eauto|].
  destruct (js_gt (current_price a) (current_price t)); apply IH.
Qed.

(** For every collection with at least one eligible holding, none of
    whose eligible holdings is priced with text, the top holding is the
    eligible holding with the greatest current price, and among several
    with that price the first in input order: every eligible holding
    before it is strictly cheaper, none after it is dearer. *)
Theorem top_is_first_greatest (l : list stock) (w : world) :
  Forall numeric_price (filter eligible l) ->
  filter eligible l <> [] ->
  exists m h,
    portfolioMetrics (ui (snd (fetchPortfolioMetrics l w))) = Some m
    /\ topStock m = Some h
    /\ first_greatest (filter eligible l) h.
Proof.
  intros Hnum Hne. rewrite fetchPortfolioMetrics_run.
  cbn [snd ui portfolioMetrics].
  destruct l as [|a l]; [now simpl in Hne|].
  rewrite storedMetrics_cons. cbv zeta. rewrite validStocks_eligible.
  assert (Hall : Forall (fun s => numeric_price s /\ positive (price s) = true)
                        (filter eligible (a :: l))).
  { apply Forall_forall. intros x Hx.
    split.
    - now apply (proj1 (Forall_forall _ _) Hnum).
    - apply filter_In in Hx. destruct Hx as [Hin Hel].
      unfold eligible in Hel. now apply andb_true_iff in Hel. }
  revert Hne Hall. generalize (filter eligible (a :: l)).
  intros [|v vs] Hne Hall; [congruence|].
  inversion Hall as [|? ? [_ Hv] Hvs]; subst.
  destruct (keep_top_some vs v) as [h Hh].
  eexists. exists h. split; [reflexivity|].
  cbn [topStock]. split; [exact Hh|].
  apply (keep_top_scan vs [v] v h Hvs Hv); [|exact Hh].
  exists [], []. split; [reflexivity|]. split; intros x [].
Qed.

(** *** The distribution *)

Lemma finite_positions (vs : list stock) :
  Forall (fun s => eligible s = true) vs ->
  Forall finite_holding vs -> exists qs, map position vs = map Fin qs.
Proof.
  induction 1 as [|s vs Hel _ IH]; intro Hfin.
  - now exists [].
  - inversion Hfin as [|? ? [Hp Hq] Hfin']; subst.
    destruct (IH Hfin') as [qs Hqs].
    unfold eligible in Hel. apply andb_true_iff in Hel. destruct Hel as [Ep Eq].
    unfold position at 1. cbn [map]. unfold finite in Hp, Hq.
    destruct (ToNumber (current_price s)) as [| |p];
      try contradiction; try discriminate.
    destruct (ToNumber (quantity s)) as [| |q];
      try contradiction; try discriminate.
    exists ((p * q)%Qc :: qs). cbn [map nmul]. now rewrite <- Hqs.
Qed.

Lemma sum_of_Fin (qs : list Qc) : sum_of (map Fin qs) = Fin (qsum qs).
Proof.
  induction qs as [|q qs IH]; [reflexivity|].
  unfold sum_of in *. cbn [map fold_right]. now rewrite IH.
Qed.



(* ================================================================== *)
(** ** Properties of the chart adapter                                 *)
(* ================================================================== *)

(** C10.  For every metrics cell the adapter does not fail: it returns
    the empty object exactly when there is no distribution entry, and
    otherwise one label, one value and one colour per entry, labels and
    values in distribution order. *)
Theorem pieChartData_series (pm : option metrics) :
  match pieChartData pm with
  | EmptyObject => distribution_of pm = []
  | ChartData labels datasets =>
      distribution_of pm <> []
      /\ labels = map (fun sh => name (share_of sh)) (distribution_of pm)
      /\ exists colors,
           datasets
           = [mkDataset (map percentage (distribution_of pm)) colors 4]
           /\ List.length colors = List.length (distribution_of pm)
           /\ List.length labels = List.length (distribution_of pm)
           /\ List.length (map percentage (distribution_of pm))
              = List.length (distribution_of pm)
  end.
Proof.
  destruct pm as [m|]; [|reflexivity].
  unfold pieChartData, distribution_of.
  destruct (portfolioDistribution m) as [|sh d] eqn:E; [reflexivity|].
  cbn [List.length Nat.ltb Nat.leb].
  split; [discriminate|]. split; [reflexivity|].
  eexists. split; [reflexivity|].
  now rewrite !length_map, length_seq.
Qed.

(* ================================================================== *)
(** ** Properties of the handlers                                      *)
(* ================================================================== *)

Lemma missing_is_falsy (v : value) : missing v -> ToBoolean v = false.
Proof. intros [->|[->| ->]]; reflexivity. Qed.

Lemma at_most_zero_js_le (v : value) :
  at_most_zero v -> js_le v (Number zero) = true.
Proof.
  unfold at_most_zero, js_le, IsLessThan.
  assert (H : forall n, match n with
                        | NaN => False
                        | Inf neg => neg = true
                        | Fin q => (q <= Q2Qc 0)%Qc
                        end ->
                        match nlt zero n with
                        | Some b => negb b
                        | None => false
                        end = true).
  { intros [|neg|q]; simpl; [contradiction| now intros -> |].
    intro Hq. destruct (Qcltb (Q2Qc 0) q) eqn:E; [|reflexivity].
    apply Qcltb_lt in E. exfalso. exact (Qcle_not_lt _ _ Hq E). }
  intro Hv. apply H in Hv.
  now destruct v.
Qed.

(** C7.  When the add form has a missing or empty name, ticker, quantity
    or buy price, or a quantity or buy price that is at most zero, the
    add handler sends nothing to the remote store, shows one of the two
    validation messages, and leaves the collection (and every other cell
    but the error) as rendered. *)
Theorem add_rejects_invalid_form (r : state) :
  missing (name (newStock r)) \/ missing (ticker (newStock r))
  \/ missing (quantity (newStock r)) \/ missing (buyPrice (newStock r))
  \/ at_most_zero (quantity (newStock r))
  \/ at_most_zero (buyPrice (newStock r)) ->
  let w := dispatch handleAddStock r in
  sent w = []
  /\ validation_message (error (ui w))
  /\ stocks (ui w) = stocks r
  /\ ui w = with_error r (error (ui w)).
Proof.
  intro H. unfold dispatch, handleAddStock.
  destruct (negb (ToBoolean (name (newStock r)))
            || negb (ToBoolean (ticker (newStock r)))
            || negb (ToBoolean (quantity (newStock r)))
            || negb (ToBoolean (buyPrice (newStock r)))) eqn:E1.
  { cbn. repeat split. now left. }
  destruct (js_le (quantity (newStock r)) (Number zero)
            || js_le (buyPrice (newStock r)) (Number zero)) eqn:E2.
  { cbn. repeat split. now right. }
  exfalso.
  apply orb_false_iff in E1. destruct E1 as [E1 Hb].
  apply orb_false_iff in E1. destruct E1 as [E1 Hq].
  apply orb_false_iff in E1. destruct E1 as [Hn Ht].
  apply orb_false_iff in E2. destruct E2 as [Lq Lb].
  destruct H as [H|[H|[H|[H|[H|H]]]]].
  - apply missing_is_falsy in H. rewrite H in Hn. discriminate.
  - apply missing_is_falsy in H. rewrite H in Ht. discriminate.
  - apply missing_is_falsy in H. rewrite H in Hq. discriminate.
  - apply missing_is_falsy in H. rewrite H in Hb. discriminate.
  - apply at_most_zero_js_le in H. congruence.
  - apply at_most_zero_js_le in H. congruence.
Qed.

(** Unfolds one run of a handler down to the answer of the store. *)
Ltac run_handler :=
  unfold dispatch, try_catch, bind, await, setStocks, setNewStock,
    setEditStock, setError, modify;
  cbn [fst snd ui sent app].

(** What a successful run of each handler leaves behind. *)

Lemma handleAddStock_success (r : state) (d : stock) :
  negb (ToBoolean (name (newStock r))) || negb (ToBoolean (ticker (newStock r)))
  || negb (ToBoolean (quantity (newStock r)))
  || negb (ToBoolean (buyPrice (newStock r))) = false ->
  js_le (quantity (newStock r)) (Number zero)
  || js_le (buyPrice (newStock r)) (Number zero) = false ->
  axios (POST (with_current_price (newStock r) Null)) = Resolved d ->
  dispatch handleAddStock r
  = mkWorld (mkState (stocks r ++ [d]) blankForm (editStock r) (loading r)
                     None (storedMetrics (stocks r ++ [d])) false)
            [POST (with_current_price (newStock r) Null)].
Proof.
  intros E1 E2 Hd. unfold handleAddStock, dispatch. rewrite E1, E2.
  run_handler. rewrite Hd. now rewrite fetchPortfolioMetrics_run.
Qed.

Lemma handleSaveEdit_success (r : state) (e d : stock) :
  editStock r = Some e ->
  negb (ToBoolean (name e)) || negb (ToBoolean (ticker e))
  || negb (ToBoolean (quantity e)) || negb (ToBoolean (buyPrice e)) = false ->
  js_le (quantity e) (Number zero) || js_le (buyPrice e) (Number zero) = false ->
  axios (PUT (id e) e) = Resolved d ->
  dispatch handleSaveEdit r
  = mkWorld (mkState (map (fun stock =>
                             if strict_eq (id stock) (id e) then d else stock)
                          (stocks r))
                     (newStock r) None (loading r) (error r)
                     (storedMetrics (stocks r)) false)
            [PUT (id e) e].
Proof.
  intros He E1 E2 Hd. unfold handleSaveEdit, dispatch. rewrite He, E1, E2.
  run_handler. rewrite Hd. now rewrite fetchPortfolioMetrics_run.
Qed.

Lemma handleDeleteStock_success (r : state) (id0 : value) (d : stock) :
  axios (DELETE id0) = Resolved d ->
  dispatch (fun r => handleDeleteStock r id0) r
  = mkWorld (mkState (filter (fun stock => negb (strict_eq (id stock) id0))
                             (stocks r))
                     (newStock r) (editStock r) (loading r) (error r)
                     (storedMetrics
                        (filter (fun stock => negb (strict_eq (id stock) id0))
                                (stocks r)))
                     false)
            [DELETE id0].
Proof.
  intro Hd. unfold handleDeleteStock, dispatch.
  run_handler. rewrite Hd. now rewrite fetchPortfolioMetrics_run.
Qed.

(** C8.  For each of the three mutating handlers, when the request it
    sent is rejected by the remote store, the collection (and the
    metrics) are exactly as rendered and the error banner shows the
    message of that operation. *)
Theorem remote_failure_keeps_collection (r : state) (id0 : value) :
  (forall req,
      In req (sent (dispatch handleAddStock r)) -> axios req = Rejected ->
      failed_with r "Failed to add stock." (dispatch handleAddStock r))
  /\ (forall req,
         In req (sent (dispatch handleSaveEdit r)) -> axios req = Rejected ->
         failed_with r "Failed to update stock." (dispatch handleSaveEdit r))
  /\ (forall req,
         In req (sent (dispatch (fun r => handleDeleteStock r id0) r)) ->
         axios req = Rejected ->
         failed_with r "Failed to delete stock."
                     (dispatch (fun r => handleDeleteStock r id0) r)).
Proof.
  split; [|split]; intro req.
  - unfold handleAddStock, dispatch.
    destruct (negb (ToBoolean (name (newStock r))) || _ || _ || _);
      [intros []|].
    destruct (js_le (quantity (newStock r)) (Number zero) || _);
      [intros []|].
    run_handler.
    destruct (axios (POST (with_current_price (newStock r) Null))) eqn:E.
    + intros _ _. repeat split.
    + rewrite fetchPortfolioMetrics_run. cbn [snd sent].
      intros [<-|[]] H. congruence.
  - unfold handleSaveEdit, dispatch.
    destruct (editStock r) as [e|]; [|intros []].
    destruct (negb (ToBoolean (name e)) || _ || _ || _); [intros []|].
    destruct (js_le (quantity e) (Number zero) || _); [intros []|].
    run_handler.
    destruct (axios (PUT (id e) e)) eqn:E.
    + intros _ _. repeat split.
    + rewrite fetchPortfolioMetrics_run. cbn [snd sent].
      intros [<-|[]] H. congruence.
  - unfold handleDeleteStock, dispatch. run_handler.
    destruct (axios (DELETE id0)) eqn:E.
    + intros _ _. repeat split.
    + rewrite fetchPortfolioMetrics_run. cbn [snd sent].
      intros [<-|[]] H. congruence.
Qed.

(* ================================================================== *)
(** ** Further properties of the metrics                               *)
(* ================================================================== *)

Lemma storedMetrics_same_eligible (l l' : list stock) :
  l <> [] -> l' <> [] -> filter eligible l = filter eligible l' ->
  storedMetrics l = storedMetrics l'.
Proof.
  destruct l as [|a l], l' as [|a' l']; try congruence. intros _ _ H.
  rewrite !storedMetrics_cons. cbv zeta. now rewrite !validStocks_eligible, H.
Qed.

Lemma filter_eligible_twice (l : list stock) :
  filter eligible (filter eligible l) = filter eligible l.
Proof.
  apply forallb_filter_id, forallb_forall.
  intros x Hx. now apply filter_In in Hx.
Qed.

(** X17.  Holdings that are not eligible have no influence on the metrics:
    as long as an eligible holding is left, the metrics of a collection
    are those of its eligible holdings alone. *)
Theorem metrics_ignore_ineligible (l : list stock) :
  filter eligible l <> [] ->
  storedMetrics l = storedMetrics (filter eligible l).
Proof.
  intro H. apply storedMetrics_same_eligible.
  - intro E. subst l. now apply H.
  - assumption.
  - symmetry. apply filter_eligible_twice.
Qed.

Lemma nadd_comm (x y : number) : nadd x y = nadd y x.
Proof.
  destruct x as [|a|p], y as [|b|q]; simpl; try reflexivity.
  - now destruct a, b.
  - f_equal. ring.
Qed.

Lemma sum_of_permutation (a b : list number) :
  Permutation a b -> sum_of a = sum_of b.
Proof.
  unfold sum_of. induction 1 as [|x a b _ IH|x y a|a b c _ IH1 _ IH2]; simpl.
  - reflexivity.
  - now rewrite IH.
  - now rewrite !nadd_assoc, (nadd_comm y x).
  - now rewrite IH1.
Qed.

Lemma filter_permutation (f : stock -> bool) (a b : list stock) :
  Permutation a b -> Permutation (filter f a) (filter f b).
Proof.
  induction 1 as [|x a b _ IH|x y a|a b c _ IH1 _ IH2]; simpl.
  - constructor.
  - destruct (f x); [now constructor | assumption].
  - destruct (f x), (f y); try apply Permutation_refl. constructor.
  - now apply Permutation_trans with (filter f b).
Qed.

(** X18.  Under exact rational arithmetic, that is for holdings none of
    whose prices and quantities is an infinity and with sums that do
    not round, the total value does not depend on the order of the
    holdings. *)
Theorem total_ignores_order (l l' : list stock) :
  Forall finite_holding l ->
  Permutation l l' ->
  option_map totalValue (storedMetrics l)
  = option_map totalValue (storedMetrics l').
Proof.
  intros _ H. destruct l as [|a l].
  - apply Permutation_nil in H. now subst l'.
  - destruct l' as [|a' l'].
    + apply Permutation_sym, Permutation_nil in H. discriminate.
    + rewrite !storedMetrics_cons. cbv zeta. cbn [option_map totalValue].
      rewrite !validStocks_eligible, !total_is_sum. f_equal.
      apply sum_of_permutation, Permutation_map.
      now apply filter_permutation.
Qed.

Lemma qsum_ge_member (qs : list Qc) (q : Qc) :
  Forall (fun x => (0 < x)%Qc) qs -> In q qs -> (q <= qsum qs)%Qc.
Proof.
  unfold qsum. induction 1 as [|x qs Hx Hqs IH]; intros Hin; [contradiction|].
  assert (Hnonneg : (0 <= fold_right Qcplus (Q2Qc 0) qs)%Qc).
  { clear IH Hin. induction Hqs as [|y qs Hy _ IH]; simpl.
    - apply Qcle_refl.
    - replace (Q2Qc 0) with (0 + 0)%Qc by ring.
      apply Qcplus_le_compat; [now apply Qclt_le_weak | assumption]. }
  cbn [fold_right]. destruct Hin as [->|Hin].
  - rewrite <- (Qcplus_0_r q) at 1.
    apply Qcplus_le_compat; [apply Qcle_refl | assumption].
  - rewrite <- (Qcplus_0_l q).
    apply Qcplus_le_compat; [now apply Qclt_le_weak | now apply IH].
Qed.

Lemma share_of_whole (q T : Qc) :
  (0 < q)%Qc -> (q <= T)%Qc ->
  (0 < q / T * Q2Qc 100)%Qc /\ (q / T * Q2Qc 100 <= Q2Qc 100)%Qc.
Proof.
  intros Hq HqT.
  assert (HT : (0 < T)%Qc) by (eapply Qclt_le_trans; eassumption).
  assert (HT0 : T <> Q2Qc 0).
  { intro E. rewrite E in HT. exact (Qclt_not_eq _ _ HT eq_refl). }
  assert (Hx : (q / T * T = q)%Qc) by now field.
  assert (H100 : (0 < Q2Qc 100)%Qc) by reflexivity.
  split.
  - apply Qcmult_pos; [|assumption].
    destruct (Qclt_le_dec 0 (q / T)) as [L|L]; [assumption|exfalso].
    apply (Qcmult_le_compat_r _ _ T) in L; [|now apply Qclt_le_weak].
    rewrite Hx in L. replace (0 * T)%Qc with (Q2Qc 0) in L by ring.
    exact (Qcle_not_lt _ _ L Hq).
  - replace (Q2Qc 100) with (1 * Q2Qc 100)%Qc at 2 by ring.
    apply Qcmult_le_compat_r; [|now apply Qclt_le_weak].
    apply (Qcmult_lt_0_le_reg_r _ _ T HT).
    rewrite Hx. now replace (1 * T)%Qc with T by ring.
Qed.

Lemma positive_positions (vs : list stock) :
  Forall (fun s => eligible s = true) vs ->
  Forall finite_holding vs ->
  exists qs, map position vs = map Fin qs /\ Forall (fun x => (0 < x)%Qc) qs.
Proof.
  intros Hel Hfin. destruct (finite_positions vs Hel Hfin) as [qs Hqs].
  exists qs. split; [assumption|].
  apply Forall_forall. intros q Hq.
  assert (Hin : In (Fin q) (map position vs))
    by (rewrite Hqs; now apply in_map).
  apply in_map_iff in Hin. destruct Hin as [s [Hs Hin]].
  pose proof (positive_position s (proj1 (Forall_forall _ _) Hel s Hin)) as P.
  rewrite Hs in P. now apply Qcltb_lt in P.
Qed.

(** X19.  Under exact rational arithmetic every percentage of the
    distribution is a finite number above zero and at most one
    hundred. *)
Theorem percentages_within_bounds (l : list stock) (m : metrics) :
  Forall finite_holding l ->
  storedMetrics l = Some m ->
  Forall (fun sh => exists q, percentage sh = Fin q
                              /\ (0 < q)%Qc /\ (q <= Q2Qc 100)%Qc)
         (portfolioDistribution m).
Proof.
  intros Hfin. destruct l as [|a l]; [discriminate|].
  rewrite storedMetrics_cons. cbv zeta. rewrite validStocks_eligible.
  assert (Hfin' : Forall finite_holding (filter eligible (a :: l))).
  { apply Forall_forall. intros x Hx. apply filter_In in Hx.
    now apply (proj1 (Forall_forall _ _) Hfin). }
  revert Hfin'. generalize (filter_all_eligible (a :: l)).
  generalize (filter eligible (a :: l)). intros vs Hel Hfin' H.
  injection H as <-. cbn [portfolioDistribution].
  rewrite total_is_sum.
  destruct (positive_positions vs Hel Hfin') as [qs [Hqs Hpos]].
  rewrite Hqs, sum_of_Fin.
  apply Forall_forall. intros sh Hsh.
  apply in_map_iff in Hsh. destruct Hsh as [s [<- Hs]]. cbn [percentage].
  assert (Hin : In (position s) (map Fin qs))
    by (rewrite <- Hqs; now apply in_map).
  apply in_map_iff in Hin. destruct Hin as [q [Hq Hin]]. rewrite <- Hq.
  pose proof (proj1 (Forall_forall _ _) Hpos q Hin) as Hq0.
  pose proof (qsum_ge_member qs q Hpos Hin) as HqT.
  destruct (share_of_whole q (qsum qs) Hq0 HqT) as [Hlo Hhi].
  exists (q / qsum qs * Q2Qc 100)%Qc. split; [|now split].
  unfold ndiv. destruct (Qceqb (qsum qs) (Q2Qc 0)) eqn:E; [|reflexivity].
  apply Qceqb_eq in E. rewrite E in HqT. exfalso.
  exact (Qcle_not_lt _ _ HqT Hq0).
Qed.

(** X20.  The chart of the stored metrics: the adapter returns the empty
    object exactly when the collection has no eligible holding, and
    otherwise labels the slices with the names of the eligible holdings
    in the order of the collection. *)
Theorem chart_of_collection (l : list stock) :
  match pieChartData (storedMetrics l) with
  | EmptyObject => filter eligible l = []
  | ChartData labels datasets =>
      filter eligible l <> []
      /\ labels = map name (filter eligible l)
      /\ exists d, datasets = [d]
                   /\ List.length (data d) = List.length (filter eligible l)
                   /\ List.length (backgroundColor d)
                      = List.length (filter eligible l)
  end.
Proof.
  destruct l as [|a l]; [reflexivity|].
  rewrite storedMetrics_cons. cbv zeta. rewrite validStocks_eligible.
  generalize (filter eligible (a :: l)). intros [|v vs]; [reflexivity|].
  unfold pieChartData. cbn [portfolioDistribution map List.length Nat.ltb Nat.leb].
  split; [discriminate|]. split.
  - cbn [share_of]. f_equal. rewrite map_map. cbn [share_of]. reflexivity.
  - eexists. split; [reflexivity|]. cbn [data backgroundColor List.length].
    now rewrite !length_map, length_seq.
Qed.

(* ================================================================== *)
(** ** Further properties of the handlers                              *)
(* ================================================================== *)

Lemma js_le_zero_iff (v : value) :
  js_le v (Number zero) = true <-> at_most_zero v.
Proof.
  split; [|apply at_most_zero_js_le].
  unfold at_most_zero, js_le, IsLessThan.
  assert (H : forall n, match nlt zero n with
                        | Some b => negb b
                        | None => false
                        end = true ->
                        match n with
                        | NaN => False
                        | Inf neg => neg = true
                        | Fin q => (q <= Q2Qc 0)%Qc
                        end).
  { intros [|neg|q]; simpl; [discriminate| now destruct neg |].
    intro Hq. apply negb_true_iff in Hq. now apply Qcltb_false_le. }
  intro Hv. apply H. now destruct v.
Qed.

(** The two checks of the code pass exactly on an acceptable buffer. *)
Lemma acceptable_checks (f : stock) :
  acceptable f <->
  (negb (ToBoolean (name f)) || negb (ToBoolean (ticker f))
   || negb (ToBoolean (quantity f)) || negb (ToBoolean (buyPrice f)) = false
   /\ js_le (quantity f) (Number zero) || js_le (buyPrice f) (Number zero)
      = false).
Proof.
  unfold acceptable. rewrite <- !js_le_zero_iff.
  destruct (ToBoolean (name f)), (ToBoolean (ticker f)),
    (ToBoolean (quantity f)), (ToBoolean (buyPrice f)),
    (js_le (quantity f) (Number zero)), (js_le (buyPrice f) (Number zero));
    simpl; intuition congruence.
Qed.

Lemma acceptable_dec (f : stock) : acceptable f \/ ~ acceptable f.
Proof.
  rewrite acceptable_checks.
  destruct (negb (ToBoolean (name f)) || _ || _ || _),
    (js_le (quantity f) (Number zero) || _); intuition congruence.
Qed.

Lemma handleAddStock_rejected_form (r : state) :
  ~ acceptable (newStock r) ->
  sent (dispatch handleAddStock r) = []
  /\ validation_message (error (ui (dispatch handleAddStock r)))
  /\ ui (dispatch handleAddStock r)
     = with_error r (error (ui (dispatch handleAddStock r))).
Proof.
  rewrite acceptable_checks. intro H. unfold dispatch, handleAddStock.
  destruct (negb (ToBoolean (name (newStock r))) || _ || _ || _).
  { cbn. repeat split. now left. }
  destruct (js_le (quantity (newStock r)) (Number zero) || _).
  { cbn. repeat split. now right. }
  exfalso. now apply H.
Qed.

Lemma handleAddStock_sent (r : state) :
  acceptable (newStock r) ->
  sent (dispatch handleAddStock r)
  = [POST (with_current_price (newStock r) Null)].
Proof.
  rewrite acceptable_checks. intros [E1 E2].
  unfold dispatch, handleAddStock. rewrite E1, E2. run_handler.
  destruct (axios (POST (with_current_price (newStock r) Null)));
    [reflexivity|].
  now rewrite fetchPortfolioMetrics_run.
Qed.

Lemma handleSaveEdit_rejected_edit (r : state) :
  (forall e, editStock r = Some e -> ~ acceptable e) ->
  sent (dispatch handleSaveEdit r) = []
  /\ validation_message (error (ui (dispatch handleSaveEdit r)))
  /\ ui (dispatch handleSaveEdit r)
     = with_error r (error (ui (dispatch handleSaveEdit r))).
Proof.
  intro H. unfold dispatch, handleSaveEdit.
  destruct (editStock r) as [e|]; [|cbn; repeat split; now left].
  specialize (H e eq_refl). rewrite acceptable_checks in H.
  destruct (negb (ToBoolean (name e)) || _ || _ || _).
  { cbn. repeat split. now left. }
  destruct (js_le (quantity e) (Number zero) || _).
  { cbn. repeat split. now right. }
  exfalso. now apply H.
Qed.

Lemma handleSaveEdit_sent (r : state) (e : stock) :
  editStock r = Some e -> acceptable e ->
  sent (dispatch handleSaveEdit r) = [PUT (id e) e].
Proof.
  intro He. rewrite acceptable_checks. intros [E1 E2].
  unfold dispatch, handleSaveEdit. rewrite He, E1, E2. run_handler.
  destruct (axios (PUT (id e) e)); [reflexivity|].
  now rewrite fetchPortfolioMetrics_run.
Qed.

Lemma handleDeleteStock_sent (r : state) (id0 : value) :
  sent (dispatch (fun r => handleDeleteStock r id0) r) = [DELETE id0].
Proof.
  unfold dispatch, handleDeleteStock. run_handler.
  destruct (axios (DELETE id0)); [reflexivity|].
  now rewrite fetchPortfolioMetrics_run.
Qed.

(** X5.  A handler contacts the remote store at most once, and only with the
    request of its own operation: the add handler posts the form with
    [current_price] set to [null], the save handler puts the edit buffer
    under its own [id], and the delete handler, which has no client-side
    check, always sends its delete. *)
Theorem handlers_send_one_request (r : state) (id0 : value) :
  (sent (dispatch handleAddStock r) = []
   \/ sent (dispatch handleAddStock r)
      = [POST (with_current_price (newStock r) Null)])
  /\ (sent (dispatch handleSaveEdit r) = []
      \/ exists e, editStock r = Some e
                   /\ sent (dispatch handleSaveEdit r) = [PUT (id e) e])
  /\ sent (dispatch (fun r => handleDeleteStock r id0) r) = [DELETE id0].
Proof.
  split; [|split].
  - destruct (acceptable_dec (newStock r)) as [H|H].
    + right. now apply handleAddStock_sent.
    + left. now apply handleAddStock_rejected_form.
  - destruct (editStock r) as [e|] eqn:He.
    + destruct (acceptable_dec e) as [H|H].
      * right. exists e. split; [reflexivity|]. now apply handleSaveEdit_sent.
      * left. apply handleSaveEdit_rejected_edit.
        intros e' He'. rewrite He in He'. now injection He' as <-.
    + left. apply handleSaveEdit_rejected_edit.
      intros e' He'. rewrite He in He'. discriminate.
  - apply handleDeleteStock_sent.
Qed.

(** X6.  The add handler contacts the remote store exactly when the four
    fields of the form are truthy and neither quantity nor buy price
    converts to a number that is at most zero.  A quantity that converts
    to NaN, such as text that is not a numeral, is let through. *)
Theorem add_contacts_store_iff_acceptable (r : state) :
  sent (dispatch handleAddStock r) <> [] <-> acceptable (newStock r).
Proof.
  split.
  - intro H. destruct (acceptable_dec (newStock r)) as [A|A]; [assumption|].
    exfalso. apply H. now apply handleAddStock_rejected_form.
  - intro A. rewrite (handleAddStock_sent r A). discriminate.
Qed.

(** X9.  The save handler applies the same checks to the edit buffer: with no
    buffer, or with a buffer that does not pass, it sends nothing, shows
    a validation message and changes no other cell, so the collection
    and the edit buffer stay as rendered. *)
Theorem save_rejects_invalid_edit (r : state) :
  (forall e, editStock r = Some e -> ~ acceptable e) ->
  let w := dispatch handleSaveEdit r in
  sent w = []
  /\ validation_message (error (ui w))
  /\ stocks (ui w) = stocks r
  /\ editStock (ui w) = editStock r
  /\ ui w = with_error r (error (ui w)).
Proof.
  intro H. destruct (handleSaveEdit_rejected_edit r H) as [Hs [Hv Hu]].
  cbv zeta. repeat split; try assumption; now rewrite Hu.
Qed.

(** X10.  Edit mode is left only by a save that the store accepted: when the
    request is rejected the edit buffer is still there. *)
Theorem edit_mode_left_only_on_success (r : state) (e : stock) :
  editStock r = Some e ->
  acceptable e ->
  editStock (ui (dispatch handleSaveEdit r))
  = match axios (PUT (id e) e) with
    | Resolved _ => None
    | Rejected => Some e
    end.
Proof.
  intro He. rewrite acceptable_checks. intros [E1 E2].
  destruct (axios (PUT (id e) e)) as [|d] eqn:Hd.
  - unfold dispatch, handleSaveEdit. rewrite He, E1, E2. run_handler.
    now rewrite Hd.
  - now rewrite (handleSaveEdit_success r e d He E1 E2 Hd).
Qed.

(** X7.  A successful add appends the record the store returned at the end
    of the collection, empties the form, clears the error and stores the
    metrics of the resulting collection. *)
Theorem add_success (r : state) (d : stock) :
  acceptable (newStock r) ->
  axios (POST (with_current_price (newStock r) Null)) = Resolved d ->
  let s := ui (dispatch handleAddStock r) in
  stocks s = stocks r ++ [d]
  /\ newStock s = blankForm
  /\ error s = None
  /\ editStock s = editStock r
  /\ consistent s.
Proof.
  rewrite acceptable_checks. intros [E1 E2] Hd.
  rewrite (handleAddStock_success r d E1 E2 Hd). repeat split.
Qed.

(** X8.  When the record a successful add returns is not eligible (the store
    has not priced it) and the collection was not empty, the metrics
    stored are those of the collection before the add. *)
Theorem unpriced_add_keeps_metrics (r : state) (d : stock) :
  acceptable (newStock r) ->
  axios (POST (with_current_price (newStock r) Null)) = Resolved d ->
  eligible d = false ->
  stocks r <> [] ->
  portfolioMetrics (ui (dispatch handleAddStock r)) = storedMetrics (stocks r).
Proof.
  rewrite acceptable_checks. intros [E1 E2] Hd Hel Hne.
  rewrite (handleAddStock_success r d E1 E2 Hd). cbn [ui portfolioMetrics].
  apply storedMetrics_same_eligible; [now destruct (stocks r) | assumption |].
  rewrite filter_app. cbn [filter]. rewrite Hel. apply app_nil_r.
Qed.

(** X12.  A successful delete keeps, in order, the holdings whose [id] differs
    from the one deleted, so that no holding with that [id] is left, and
    stores the metrics of the resulting collection; the error and the
    two form buffers are not touched. *)
Theorem delete_success (r : state) (id0 : value) (d : stock) :
  axios (DELETE id0) = Resolved d ->
  let s := ui (dispatch (fun r => handleDeleteStock r id0) r) in
  stocks s = filter (fun x => negb (strict_eq (id x) id0)) (stocks r)
  /\ Forall (fun x => strict_eq (id x) id0 = false) (stocks s)
  /\ (List.length (stocks s) <= List.length (stocks r))%nat
  /\ consistent s
  /\ error s = error r /\ newStock s = newStock r /\ editStock s = editStock r.
Proof.
  intro Hd. rewrite (handleDeleteStock_success r id0 d Hd).
  cbn [ui stocks]. split; [reflexivity|]. split; [|split].
  - apply Forall_forall. intros x Hx. apply filter_In in Hx.
    now apply negb_true_iff.
  - apply filter_length_le.
  - repeat split.
Qed.

(** X13.  Deleting an [id] that no holding has leaves the collection as it
    was; the request is sent all the same and the metrics are recomputed
    from the collection, whatever the metrics cell held before. *)
Theorem delete_absent_id (r : state) (id0 : value) (d : stock) :
  axios (DELETE id0) = Resolved d ->
  Forall (fun x => strict_eq (id x) id0 = false) (stocks r) ->
  let w := dispatch (fun r => handleDeleteStock r id0) r in
  stocks (ui w) = stocks r
  /\ portfolioMetrics (ui w) = storedMetrics (stocks r)
  /\ sent w = [DELETE id0].
Proof.
  intros Hd Hall. rewrite (handleDeleteStock_success r id0 d Hd).
  cbn [ui stocks portfolioMetrics sent].
  assert (E : filter (fun x => negb (strict_eq (id x) id0)) (stocks r)
              = stocks r).
  { apply forallb_filter_id, forallb_forall. intros x Hx.
    now rewrite (proj1 (Forall_forall _ _) Hall x Hx). }
  now rewrite E.
Qed.

(** X11.  A successful save keeps the length and the order of the
    collection: each holding whose [id] is strictly equal to that of the
    edit buffer is replaced, in place, by the record the store returned,
    and every other holding stays; when no holding has that [id] the
    collection is unchanged.  The error and the add form are not
    touched. *)
Theorem save_replaces_in_place (r : state) (e d : stock) :
  editStock r = Some e ->
  acceptable e ->
  axios (PUT (id e) e) = Resolved d ->
  let s := ui (dispatch handleSaveEdit r) in
  List.length (stocks s) = List.length (stocks r)
  /\ (forall i x, nth_error (stocks r) i = Some x ->
                  nth_error (stocks s) i
                  = Some (if strict_eq (id x) (id e) then d else x))
  /\ (Forall (fun x => strict_eq (id x) (id e) = false) (stocks r) ->
      stocks s = stocks r)
  /\ error s = error r /\ newStock s = newStock r.
Proof.
  intro He. rewrite acceptable_checks. intros [E1 E2] Hd.
  rewrite (handleSaveEdit_success r e d He E1 E2 Hd). cbn [ui stocks].
  split; [apply length_map|]. split; [|split; [|now split]].
  - intros i x Hx. now rewrite nth_error_map, Hx.
  - intro Hall. rewrite <- (map_id (stocks r)) at 2.
    apply map_ext_in. intros x Hx.
    now rewrite (proj1 (Forall_forall _ _) Hall x Hx).
Qed.

(** X14.  Adding a holding and then deleting the [id] the store gave it brings
    the collection back, provided that [id] is new to the collection;
    the metrics are then those of the collection. *)
Theorem add_then_delete_round_trip (r : state) (d d' : stock) :
  acceptable (newStock r) ->
  axios (POST (with_current_price (newStock r) Null)) = Resolved d ->
  axios (DELETE (id d)) = Resolved d' ->
  strict_eq (id d) (id d) = true ->
  Forall (fun x => strict_eq (id x) (id d) = false) (stocks r) ->
  let s1 := ui (dispatch handleAddStock r) in
  let s2 := ui (dispatch (fun r => handleDeleteStock r (id d)) s1) in
  stocks s2 = stocks r /\ consistent s2.
Proof.
  rewrite acceptable_checks. intros [E1 E2] Hd Hd' Hrefl Hfresh.
  rewrite (handleAddStock_success r d E1 E2 Hd). cbn [ui].
  rewrite (handleDeleteStock_success _ (id d) d' Hd'). cbn [ui stocks].
  assert (E : filter (fun x => negb (strict_eq (id x) (id d))) (stocks r ++ [d])
              = stocks r).
  { rewrite filter_app. cbn [filter]. rewrite Hrefl. cbn [negb].
    rewrite app_nil_r.
    apply forallb_filter_id, forallb_forall. intros x Hx.
    now rewrite (proj1 (Forall_forall _ _) Hfresh x Hx). }
  unfold consistent. cbn [stocks portfolioMetrics]. now rewrite E.
Qed.

(** *** The form buffers *)

Lemma local_handler_run (ev : local_event) (w : world) :
  exists new edit,
    snd (local_handler ev (ui w) w)
    = mkWorld (mkState (stocks (ui w)) new edit (loading (ui w))
                       (error (ui w)) (portfolioMetrics (ui w))
                       (isMetricsLoading (ui w)))
              (sent w).
Proof.
  destruct ev; cbn; eauto.
Qed.

(** X15.  Clicking Edit or Cancel and typing into the form, in any order and
    any number of times, contacts nothing and leaves the collection, the
    metrics, the error and the two loading flags as they were. *)
Theorem local_events_touch_buffers_only (evs : list local_event) (w : world) :
  let w' := replay evs w in
  stocks (ui w') = stocks (ui w)
  /\ portfolioMetrics (ui w') = portfolioMetrics (ui w)
  /\ error (ui w') = error (ui w)
  /\ loading (ui w') = loading (ui w)
  /\ isMetricsLoading (ui w') = isMetricsLoading (ui w)
  /\ sent w' = sent w.
Proof.
  unfold replay. revert w. induction evs as [|ev evs IH]; intro w.
  - cbn. repeat split.
  - cbn [fold_left]. destruct (local_handler_run ev w) as [new [edit E]].
    specialize (IH (snd (local_handler ev (ui w) w))).
    cbv zeta in IH. rewrite E in IH at 2 4 6 8 10 12. exact IH.
Qed.

Lemma typing_in_edit_run (evs : list local_event) (w : world) :
  Forall is_typing_in_edit evs ->
  exists edit,
    replay evs w
    = mkWorld (mkState (stocks (ui w)) (newStock (ui w)) edit (loading (ui w))
                       (error (ui w)) (portfolioMetrics (ui w))
                       (isMetricsLoading (ui w)))
              (sent w).
Proof.
  unfold replay. intro H. revert w.
  induction H as [|ev evs Hev _ IH]; intro w.
  - exists (editStock (ui w)). now destruct w as [[] ?].
  - cbn [fold_left]. destruct ev; try contradiction.
    destruct (IH (snd (local_handler (TypeInEdit e_name e_value) (ui w) w)))
      as [edit E].
    exists edit. rewrite E. reflexivity.
Qed.

(** X16.  Cancel discards the edit: starting with no holding being edited,
    clicking Edit on a holding, typing into the form and clicking Cancel
    gives back the state there was before. *)
Theorem edit_then_cancel_restores (stock0 : stock) (typing : list local_event)
    (w : world) :
  editStock (ui w) = None ->
  Forall is_typing_in_edit typing ->
  replay (ClickEdit stock0 :: typing ++ [ClickCancel]) w = w.
Proof.
  intros Hnone Htyping. unfold replay. cbn [fold_left].
  rewrite fold_left_app. cbn [fold_left].
  destruct (typing_in_edit_run typing
              (snd (local_handler (ClickEdit stock0) (ui w) w)) Htyping)
    as [edit E].
  unfold replay in E. rewrite E. cbn.
  destruct w as [[] ?]. cbn in *. now subst.
Qed.

(** *** The initial load and the render that follows *)

Lemma fetchStocks_run (get : option payload) (w : world) :
  fetchStocks get w =
  match get with
  | Some (Records data) =>
      (Some tt,
       mkWorld (mkState data (newStock (ui w)) (editStock (ui w)) false
                        (error (ui w)) (storedMetrics data) false)
               (sent w))
  | _ =>
      (Some tt,
       mkWorld (mkState (stocks (ui w)) (newStock (ui w)) (editStock (ui w))
                        false (Some "Failed to fetch stock data."%string)
                        (portfolioMetrics (ui w)) (isMetricsLoading (ui w)))
               (sent w))
  end.
Proof.
  unfold fetchStocks, try_finally, try_catch, bind, awaitGet, throw,
    setStocks, setError, setLoading, modify.
  destruct get as [[data|v]|]; cbn [fst snd ui sent]; try reflexivity.
  now rewrite fetchPortfolioMetrics_run.
Qed.

(** X1.  The load never leaves the component loading.  With an array it
    replaces the collection by the array and stores its metrics; with a
    rejected request or a payload that is not an array it leaves
    collection and metrics (and the metrics-loading flag) as they were
    and shows the load error. *)
Theorem load_outcome (get : option payload) (w : world) :
  let s := ui (snd (fetchStocks get w)) in
  loading s = false
  /\ match get with
     | Some (Records data) =>
         stocks s = data /\ consistent s /\ isMetricsLoading s = false
         /\ error s = error (ui w)
     | _ =>
         stocks s = stocks (ui w)
         /\ portfolioMetrics s = portfolioMetrics (ui w)
         /\ isMetricsLoading s = isMetricsLoading (ui w)
         /\ error s = Some "Failed to fetch stock data."%string
     end.
Proof.
  rewrite fetchStocks_run.
  destruct get as [[data|v]|]; cbn; repeat split.
Qed.

(** X2.  After a first load that failed the dashboard shows the load error,
    a total of zero, no card, the empty add form, and a distribution
    panel that is still loading: nothing turns the metrics-loading flag
    off. *)
Theorem failed_first_load_view (get : option payload) :
  (get = None \/ exists v, get = Some (NotAnArray v)) ->
  render (ui (snd (fetchStocks get (mkWorld initialState []))))
  = Some (mkView (Some "Failed to fetch stock data."%string)
                 (Loaded zero None MetricsLoading [] false blankForm)).
Proof.
  intro H. rewrite fetchStocks_run.
  destruct H as [->|[v ->]]; reflexivity.
Qed.

Lemma storedMetrics_none (l : list stock) : storedMetrics l = None <-> l = [].
Proof.
  destruct l as [|a l]; [now split|].
  rewrite storedMetrics_cons. split; discriminate.
Qed.

Lemma render_throws (s : state) :
  render s = None <-> loading s = false /\ portfolioMetrics s = None.
Proof.
  unfold render. destruct (loading s), (portfolioMetrics s);
    split; try discriminate; intuition congruence.
Qed.

(** X3.  The render that follows the load throws exactly when the store
    answered with the empty array (for a state whose metrics cell is not
    [null] before the load, as in the first render). *)
Theorem render_after_load (get : option payload) (w : world) :
  portfolioMetrics (ui w) <> None ->
  render (ui (snd (fetchStocks get w))) = None <-> get = Some (Records []).
Proof.
  intro Hm. rewrite render_throws, fetchStocks_run.
  destruct get as [[data|v]|]; cbn [snd ui loading portfolioMetrics].
  - rewrite storedMetrics_none. split.
    + now intros [_ ->].
    + intro E. injection E as ->. now split.
  - split; [intros [_ E]; contradiction | discriminate].
  - split; [intros [_ E]; contradiction | discriminate].
Qed.

Lemma filter_out_all (id0 : value) (l : list stock) :
  filter (fun x => negb (strict_eq (id x) id0)) l = []
  <-> Forall (fun x => strict_eq (id x) id0 = true) l.
Proof.
  induction l as [|a l IH]; cbn [filter].
  - split; constructor.
  - destruct (strict_eq (id a) id0) eqn:E; cbn [negb].
    + rewrite IH. split; [now constructor | now inversion 1].
    + split; [discriminate|]. inversion 1; congruence.
Qed.

(** X4.  Once the load is over, the render that follows a successful delete
    throws exactly when the delete removed every holding of the
    collection. *)
Theorem render_after_delete (r : state) (id0 : value) (d : stock) :
  loading r = false ->
  axios (DELETE id0) = Resolved d ->
  render (ui (dispatch (fun r => handleDeleteStock r id0) r)) = None
  <-> Forall (fun x => strict_eq (id x) id0 = true) (stocks r).
Proof.
  intros Hl Hd. rewrite render_throws.
  rewrite (handleDeleteStock_success r id0 d Hd).
  cbn [ui loading portfolioMetrics].
  rewrite storedMetrics_none, filter_out_all. tauto.
Qed.

End Dashboard.

(* ================================================================== *)
(** ** Instances                                                       *)
(* ================================================================== *)

Lemma no_eligible_metrics_witness :
  filter (eligible decimalLiteral) [cord] = []
  /\ (let s := ui (snd (fetchPortfolioMetrics decimalLiteral [cord]
                         (mkWorld initialState []))) in
      portfolioMetrics s = Some emptyMetrics
      /\ isMetricsLoading s = false
      /\ isMetricsLoading initialState = true).
Proof.
  split; [reflexivity|].
  apply (no_eligible_metrics decimalLiteral [cord] (mkWorld initialState [])).
  reflexivity.
Defined.

(** C2, where the code departs from it.  For the empty collection the
    computation stores [null], not the canonical empty metrics value,
    and the render that follows a load of the empty array throws on
    reading the total; for a collection that is not empty and has no
    eligible holding it stores the canonical empty value, which
    renders. *)
Theorem empty_collection_stores_null :
  let after l :=
    ui (snd (fetchPortfolioMetrics decimalLiteral l (mkWorld initialState []))) in
  let loaded l :=
    ui (snd (fetchStocks decimalLiteral (Some (Records l))
                         (mkWorld initialState []))) in
  portfolioMetrics (after []) = None
  /\ portfolioMetrics (after []) <> Some emptyMetrics
  /\ render halves (loaded []) = None
  /\ portfolioMetrics (after [cord]) = Some emptyMetrics
  /\ render halves (loaded [cord]) <> None.
Proof.
  intros after loaded.
  split; [reflexivity|]. split; [discriminate|]. split; [reflexivity|].
  split; [reflexivity | discriminate].
Qed.

Lemma metrics_reflect_eligible_witness :
  [acme; cord; bolt] <> []
  /\ reflects_eligible decimalLiteral [acme; cord; bolt]
       (portfolioMetrics
          (ui (snd (fetchPortfolioMetrics decimalLiteral [acme; cord; bolt]
                      (mkWorld initialState []))))).
Proof.
  split; [discriminate|].
  apply (metrics_reflect_eligible decimalLiteral [acme; cord; bolt]
           (mkWorld initialState [])).
  discriminate.
Defined.

(** C3, where the code departs from it.  For the empty collection the
    computation stores [null], so there is no metrics value whose total
    is the (empty) sum and whose distribution is the (empty) list of
    eligible holdings. *)
Theorem empty_collection_has_no_total :
  ~ reflects_eligible decimalLiteral []
      (portfolioMetrics
         (ui (snd (fetchPortfolioMetrics decimalLiteral []
                     (mkWorld initialState []))))).
Proof. intros [m [H _]]. discriminate H. Qed.

Lemma total_nonzero_when_dividing_witness :
  exists m,
    portfolioMetrics
      (ui (snd (fetchPortfolioMetrics decimalLiteral [acme; cord; bolt]
                  (mkWorld initialState []))))
    = Some m
    /\ portfolioDistribution m <> []
    /\ positive (totalValue m) = true
    /\ totalValue m <> zero.
Proof.
  eexists. split; [reflexivity|]. split; [discriminate|].
  destruct (total_nonzero_when_dividing decimalLiteral [acme; cord; bolt]
              (mkWorld initialState []) _ eq_refl) as [Hpos [Hnz _]].
  - discriminate.
  - split; [exact Hpos | exact Hnz].
Defined.

Lemma top_is_first_greatest_witness :
  Forall numeric_price
         (filter (eligible decimalLiteral) [acme; cord; bolt; dart])
  /\ filter (eligible decimalLiteral) [acme; cord; bolt; dart] <> []
  /\ exists m h,
       portfolioMetrics
         (ui (snd (fetchPortfolioMetrics decimalLiteral [acme; cord; bolt; dart]
                     (mkWorld initialState []))))
       = Some m
       /\ topStock m = Some h
       /\ first_greatest decimalLiteral
            (filter (eligible decimalLiteral) [acme; cord; bolt; dart]) h.
Proof.
  assert (Hnum : Forall numeric_price
                   (filter (eligible decimalLiteral) [acme; cord; bolt; dart]))
    by (repeat constructor).
  assert (Hne : filter (eligible decimalLiteral) [acme; cord; bolt; dart] <> [])
    by (vm_compute; discriminate).
  split; [exact Hnum|]. split; [exact Hne|].
  exact (top_is_first_greatest decimalLiteral [acme; cord; bolt; dart]
           (mkWorld initialState []) Hnum Hne).
Defined.


Lemma add_rejects_invalid_form_witness :
  at_most_zero decimalLiteral
    (quantity (newStock (rendered [acme] (typed "Bolt" "BLT" "-1" "20") None None)))
  /\ (let w := dispatch (handleAddStock decimalLiteral (answering bolt))
                        (rendered [acme] (typed "Bolt" "BLT" "-1" "20") None None) in
      sent w = []
      /\ error (ui w) = Some "Quantity and Buy Price must be positive numbers."%string
      /\ stocks (ui w) = [acme]).
Proof.
  assert (H : at_most_zero decimalLiteral
                (quantity (newStock (rendered [acme] (typed "Bolt" "BLT" "-1" "20")
                                              None None))))
    by (vm_compute; discriminate).
  split; [exact H|].
  destruct (add_rejects_invalid_form decimalLiteral (answering bolt)
              (rendered [acme] (typed "Bolt" "BLT" "-1" "20") None None)
              (or_intror (or_intror (or_intror (or_intror (or_introl H))))))
    as [Hsent [_ [Hstocks _]]].
  split; [exact Hsent|]. split; [reflexivity | exact Hstocks].
Defined.

Lemma remote_failure_keeps_collection_witness :
  let r := rendered [acme; bolt] (typed "Cord" "CRD" "5" "7")
                    (Some acme_edited) None in
  failed_with r "Failed to add stock."
    (dispatch (handleAddStock decimalLiteral refusing) r)
  /\ failed_with r "Failed to update stock."
       (dispatch (handleSaveEdit decimalLiteral refusing) r)
  /\ failed_with r "Failed to delete stock."
       (dispatch (fun r => handleDeleteStock decimalLiteral refusing r (num 2)) r).
Proof.
  intro r.
  destruct (remote_failure_keeps_collection decimalLiteral refusing r (num 2))
    as [Hadd [Hedit Hdel]].
  split; [|split].
  - apply (Hadd (POST (with_current_price (newStock r) Null)));
      [left; reflexivity | reflexivity].
  - apply (Hedit (PUT (id acme_edited) acme_edited));
      [left; reflexivity | reflexivity].
  - apply (Hdel (DELETE (num 2))); [left; reflexivity | reflexivity].
Defined.

(** C1, where the code departs from it.  Saving the edit of [acme]
    (quantity 2 to 3) replaces the element of the collection by the
    record the store returned, yet the metrics stored are those of the
    collection as rendered before the edit (total 50), not those of the
    collection that results from it (total 60). *)
Theorem save_edit_stores_stale_metrics :
  let r := rendered [acme; bolt] blankForm (Some acme_edited) None in
  let w := dispatch (handleSaveEdit decimalLiteral (answering acme_edited)) r in
  stocks (ui w) = [acme_edited; bolt]
  /\ portfolioMetrics (ui w) = storedMetrics decimalLiteral [acme; bolt]
  /\ portfolioMetrics (ui w) <> storedMetrics decimalLiteral (stocks (ui w))
  /\ option_map totalValue (portfolioMetrics (ui w)) = Some (Fin (Q2Qc 50))
  /\ option_map totalValue (storedMetrics decimalLiteral (stocks (ui w)))
     = Some (Fin (Q2Qc 60)).
Proof.
  intros r w.
  split; [reflexivity|]. split; [reflexivity|].
  split; [vm_compute; discriminate|].
  split; vm_compute; do 2 f_equal; apply Qc_is_canon; reflexivity.
Qed.

(** C9, where the code departs from it.  With a message in the error
    banner, a delete and a save that both succeed change the collection
    and leave the message where it was; only a successful add clears
    it. *)
Theorem success_keeps_error_banner :
  let shown := Some "Failed to delete stock."%string in
  let wd := dispatch (fun r => handleDeleteStock decimalLiteral (answering bolt) r (num 2))
                     (rendered [acme; bolt] blankForm None shown) in
  let wu := dispatch (handleSaveEdit decimalLiteral (answering acme_edited))
                     (rendered [acme; bolt] blankForm (Some acme_edited) shown) in
  let wa := dispatch (handleAddStock decimalLiteral (answering cord))
                     (rendered [acme; bolt] (typed "Cord" "CRD" "5" "7") None shown) in
  (sent wd = [DELETE (num 2)] /\ stocks (ui wd) = [acme] /\ error (ui wd) = shown)
  /\ (sent wu = [PUT (num 1) acme_edited]
      /\ stocks (ui wu) = [acme_edited; bolt] /\ error (ui wu) = shown)
  /\ (stocks (ui wa) = [acme; bolt; cord] /\ error (ui wa) = None).
Proof.
  intros shown wd wu wa. repeat split.
Qed.

(** The scenario of the specification: 2 units at 10 and 1 unit at 30
    give a total of 50, the dearer holding on top, and shares of 40 and
    60 percent in input order. *)
Example two_holdings_scenario :
  exists m,
    storedMetrics decimalLiteral [acme; bolt] = Some m
    /\ totalValue m = Fin (Q2Qc 50)
    /\ topStock m = Some bolt
    /\ map share_of (portfolioDistribution m) = [acme; bolt]
    /\ map percentage (portfolioDistribution m) = [Fin (Q2Qc 40); Fin (Q2Qc 60)].
Proof.
  eexists. split; [reflexivity|].
  split; [vm_compute; f_equal; apply Qc_is_canon; reflexivity|].
  split; [reflexivity|]. split; [reflexivity|].
  vm_compute. f_equal; [apply f_equal, Qc_is_canon; reflexivity|].
  f_equal. apply f_equal, Qc_is_canon. reflexivity.
Qed.

(** Quantities typed into the form reach the collection as text and are
    converted where they are multiplied and compared. *)
Example text_quantity_scenario :
  let typed_bolt :=
    mkStock (num 2) (Str "Bolt") (Str "BLT") (Str "1") (Str "20") (num 30) in
  exists m,
    storedMetrics decimalLiteral [acme; typed_bolt] = Some m
    /\ totalValue m = Fin (Q2Qc 50)
    /\ topStock m = Some typed_bolt.
Proof.
  eexists. split; [reflexivity|].
  split; [vm_compute; f_equal; apply Qc_is_canon; reflexivity | reflexivity].
Qed.

(** C4, where the code departs from it.  Two holdings priced with the
    texts 10 and 9 are both eligible and both enter the total by their
    numeric value (the total is 19), yet the reduction that selects the
    top holding compares the two texts as text: it picks the holding
    priced 9, whose price is strictly below that of the other, so the
    top holding is not the one with the greatest price. *)
Theorem text_prices_rank_as_text :
  let m := storedMetrics decimalLiteral [ten; nine] in
  filter (eligible decimalLiteral) [ten; nine] = [ten; nine]
  /\ option_map totalValue m = Some (Fin (Q2Qc 19))
  /\ option_map topStock m = Some (Some nine)
  /\ below (price decimalLiteral nine) (price decimalLiteral ten)
  /\ ~ first_greatest decimalLiteral [ten; nine] nine.
Proof.
  intro m.
  split; [reflexivity|].
  split; [vm_compute; do 2 f_equal; apply Qc_is_canon; reflexivity|].
  split; [reflexivity|]. split; [reflexivity|].
  intros [before [after [Hsplit [Hbefore _]]]].
  destruct before as [|b before].
  - injection Hsplit as Hhead _. discriminate Hhead.
  - injection Hsplit as <- _.
    specialize (Hbefore ten (or_introl eq_refl)).
    vm_compute in Hbefore. discriminate Hbefore.
Qed.

(** C6, where the code departs from it.  On doubles, a holding whose
    price and quantity are both the double of [1e-200] passes the
    filter, since both are above zero, but their product underflows to
    zero: the total is zero and the one percentage computed is zero
    divided by zero, that is NaN. *)
Theorem underflow_divides_by_zero_total :
  Doubles.validStocks [Doubles.tiny] = [Doubles.tiny]
  /\ exists m sh,
       Doubles.fetchPortfolioMetrics [Doubles.tiny] = Some m
       /\ Doubles.portfolioDistribution m = [sh]
       /\ Doubles.totalValue m = PrimFloat.zero
       /\ PrimFloat.is_nan (Doubles.percentage sh) = true.
Proof.
  split; [reflexivity|].
  eexists. eexists. split; [reflexivity|]. split; [reflexivity|].
  split; reflexivity.
Qed.

(* ================================================================== *)
(** ** Instances of the further properties                             *)
(* ================================================================== *)

(** Closes a goal about sample data by evaluation. *)
Ltac evaluated := vm_compute; intuition (congruence || discriminate).

Lemma metrics_ignore_ineligible_witness :
  filter (eligible decimalLiteral) [acme; cord; bolt] <> []
  /\ storedMetrics decimalLiteral [acme; cord; bolt]
     = storedMetrics decimalLiteral
         (filter (eligible decimalLiteral) [acme; cord; bolt]).
Proof.
  assert (H : filter (eligible decimalLiteral) [acme; cord; bolt] <> [])
    by (vm_compute; discriminate).
  split; [exact H|].
  exact (metrics_ignore_ineligible decimalLiteral [acme; cord; bolt] H).
Defined.

Lemma total_ignores_order_witness :
  Forall (finite_holding decimalLiteral) [acme; bolt; cord]
  /\ Permutation [acme; bolt; cord] [bolt; cord; acme]
  /\ option_map totalValue (storedMetrics decimalLiteral [acme; bolt; cord])
     = option_map totalValue (storedMetrics decimalLiteral [bolt; cord; acme]).
Proof.
  assert (H : Permutation [acme; bolt; cord] [bolt; cord; acme])
    by (apply (Permutation_cons_append [bolt; cord] acme)).
  assert (F : Forall (finite_holding decimalLiteral) [acme; bolt; cord])
    by (repeat constructor).
  split; [exact F|]. split; [exact H|].
  exact (total_ignores_order decimalLiteral _ _ F H).
Defined.

Lemma percentages_within_bounds_witness :
  Forall (finite_holding decimalLiteral) [acme; cord; bolt]
  /\ exists m,
       storedMetrics decimalLiteral [acme; cord; bolt] = Some m
       /\ Forall (fun sh => exists q, percentage sh = Fin q
                                     /\ (0 < q)%Qc /\ (q <= Q2Qc 100)%Qc)
                 (portfolioDistribution m).
Proof.
  assert (Hfin : Forall (finite_holding decimalLiteral) [acme; cord; bolt])
    by (repeat constructor).
  split; [exact Hfin|].
  eexists. split; [reflexivity|].
  exact (percentages_within_bounds decimalLiteral [acme; cord; bolt] _
           Hfin eq_refl).
Defined.

(** Text that is not a numeral converts to NaN, which is not at most
    zero: the form is posted with that text as its quantity. *)
Example text_quantity_is_posted :
  sent (dispatch (handleAddStock decimalLiteral refusing)
                 (rendered [] (typed "Cord" "CRD" "many" "7") None None))
  = [POST (with_current_price (typed "Cord" "CRD" "many" "7") Null)].
Proof. reflexivity. Qed.

Lemma save_rejects_invalid_edit_witness :
  let r := rendered [acme; bolt] blankForm
                    (Some (set_field acme quantity_input (Str "0"))) None in
  (forall e, editStock r = Some e -> ~ acceptable decimalLiteral e)
  /\ (let w := dispatch (handleSaveEdit decimalLiteral (answering acme)) r in
      sent w = [] /\ stocks (ui w) = stocks r
      /\ editStock (ui w) = editStock r).
Proof.
  intro r.
  assert (H : forall e, editStock r = Some e -> ~ acceptable decimalLiteral e).
  { intros e He. injection He as <-. evaluated. }
  split; [exact H|].
  destruct (save_rejects_invalid_edit decimalLiteral (answering acme) r H)
    as [Hs [_ [Hst [He _]]]].
  split; [exact Hs|]. split; [exact Hst | exact He].
Defined.

Lemma edit_mode_left_only_on_success_witness :
  let r := rendered [acme; bolt] blankForm (Some acme_edited) None in
  editStock r = Some acme_edited
  /\ acceptable decimalLiteral acme_edited
  /\ editStock (ui (dispatch (handleSaveEdit decimalLiteral refusing) r))
     = Some acme_edited
  /\ editStock
       (ui (dispatch (handleSaveEdit decimalLiteral (answering acme_edited)) r))
     = None.
Proof.
  intro r.
  assert (A : acceptable decimalLiteral acme_edited) by evaluated.
  split; [reflexivity|]. split; [exact A|]. split.
  - exact (edit_mode_left_only_on_success decimalLiteral refusing r
             acme_edited eq_refl A).
  - exact (edit_mode_left_only_on_success decimalLiteral
             (answering acme_edited) r acme_edited eq_refl A).
Defined.

Lemma add_success_witness :
  let r := rendered [acme; bolt] (typed "Cord" "CRD" "5" "7") None
                    (Some "Failed to add stock."%string) in
  acceptable decimalLiteral (newStock r)
  /\ (let s := ui (dispatch (handleAddStock decimalLiteral (answering cord)) r) in
      stocks s = [acme; bolt; cord]
      /\ newStock s = blankForm
      /\ error s = None
      /\ consistent decimalLiteral s).
Proof.
  intro r.
  assert (A : acceptable decimalLiteral (newStock r)) by evaluated.
  split; [exact A|].
  destruct (add_success decimalLiteral (answering cord) r cord A eq_refl)
    as [Hst [Hn [He [_ Hc]]]].
  split; [exact Hst|]. split; [exact Hn|]. split; [exact He | exact Hc].
Defined.

Lemma unpriced_add_keeps_metrics_witness :
  let r := rendered [acme; bolt] (typed "Cord" "CRD" "5" "7") None None in
  acceptable decimalLiteral (newStock r)
  /\ eligible decimalLiteral cord = false
  /\ stocks r <> []
  /\ portfolioMetrics
       (ui (dispatch (handleAddStock decimalLiteral (answering cord)) r))
     = storedMetrics decimalLiteral [acme; bolt].
Proof.
  intro r.
  assert (A : acceptable decimalLiteral (newStock r)) by evaluated.
  assert (N : stocks r <> []) by discriminate.
  split; [exact A|]. split; [reflexivity|]. split; [exact N|].
  exact (unpriced_add_keeps_metrics decimalLiteral (answering cord) r cord
           A eq_refl eq_refl N).
Defined.

Lemma delete_success_witness :
  let r := rendered [acme; bolt; cord] blankForm None None in
  let s := ui (dispatch (fun r => handleDeleteStock decimalLiteral
                                    (answering bolt) r (num 2)) r) in
  stocks s = [acme; cord]
  /\ Forall (fun x => strict_eq (id x) (num 2) = false) (stocks s)
  /\ consistent decimalLiteral s.
Proof.
  intros r s.
  destruct (delete_success decimalLiteral (answering bolt) r (num 2) bolt
              eq_refl) as [Hst [Hall [_ [Hc _]]]].
  split; [exact Hst|]. split; [exact Hall | exact Hc].
Defined.

Lemma delete_absent_id_witness :
  let r := rendered [acme; bolt] blankForm None None in
  Forall (fun x => strict_eq (id x) (num 7) = false) (stocks r)
  /\ (let w := dispatch (fun r => handleDeleteStock decimalLiteral
                                    (answering bolt) r (num 7)) r in
      stocks (ui w) = [acme; bolt]
      /\ portfolioMetrics (ui w) = storedMetrics decimalLiteral [acme; bolt]
      /\ sent w = [DELETE (num 7)]).
Proof.
  intro r.
  assert (H : Forall (fun x => strict_eq (id x) (num 7) = false) (stocks r))
    by (repeat constructor).
  split; [exact H|].
  exact (delete_absent_id decimalLiteral (answering bolt) r (num 7) bolt
           eq_refl H).
Defined.

Lemma save_replaces_in_place_witness :
  let r := rendered [acme; bolt] blankForm (Some acme_edited) None in
  editStock r = Some acme_edited
  /\ acceptable decimalLiteral acme_edited
  /\ (let s := ui (dispatch (handleSaveEdit decimalLiteral
                                (answering acme_edited)) r) in
      List.length (stocks s) = 2%nat
      /\ nth_error (stocks s) 0 = Some acme_edited
      /\ nth_error (stocks s) 1 = Some bolt).
Proof.
  intro r.
  assert (A : acceptable decimalLiteral acme_edited) by evaluated.
  split; [reflexivity|]. split; [exact A|].
  destruct (save_replaces_in_place decimalLiteral (answering acme_edited) r
              acme_edited acme_edited eq_refl A eq_refl) as [Hlen [Hnth _]].
  split; [exact Hlen|]. split.
  - exact (Hnth 0%nat acme eq_refl).
  - exact (Hnth 1%nat bolt eq_refl).
Defined.

Lemma add_then_delete_round_trip_witness :
  let r := rendered [acme; bolt] (typed "Cord" "CRD" "5" "7") None None in
  acceptable decimalLiteral (newStock r)
  /\ strict_eq (id cord) (id cord) = true
  /\ Forall (fun x => strict_eq (id x) (id cord) = false) (stocks r)
  /\ (let s1 := ui (dispatch (handleAddStock decimalLiteral (answering cord)) r) in
      let s2 := ui (dispatch (fun r => handleDeleteStock decimalLiteral
                                         (answering cord) r (id cord)) s1) in
      stocks s2 = [acme; bolt] /\ consistent decimalLiteral s2).
Proof.
  intro r.
  assert (A : acceptable decimalLiteral (newStock r)) by evaluated.
  assert (F : Forall (fun x => strict_eq (id x) (id cord) = false) (stocks r))
    by (repeat constructor).
  split; [exact A|]. split; [reflexivity|]. split; [exact F|].
  exact (add_then_delete_round_trip decimalLiteral (answering cord) r cord cord
           A eq_refl eq_refl eq_refl F).
Defined.

Lemma edit_then_cancel_restores_witness :
  let w := mkWorld (rendered [acme; bolt] blankForm None None) [] in
  let typing := [TypeInEdit quantity_input "3"; TypeInEdit name_input "Acme Co"] in
  editStock (ui w) = None
  /\ Forall is_typing_in_edit typing
  /\ replay (ClickEdit acme :: typing ++ [ClickCancel]) w = w.
Proof.
  intros w typing.
  assert (T : Forall is_typing_in_edit typing) by (repeat constructor).
  split; [reflexivity|]. split; [exact T|].
  exact (edit_then_cancel_restores acme typing w eq_refl T).
Defined.

Lemma failed_first_load_view_witness :
  (Some (NotAnArray (Str "down for maintenance")) = None
   \/ exists v, Some (NotAnArray (Str "down for maintenance"))
                = Some (NotAnArray v))
  /\ render halves
       (ui (snd (fetchStocks decimalLiteral
                   (Some (NotAnArray (Str "down for maintenance")))
                   (mkWorld initialState []))))
     = Some (mkView (Some "Failed to fetch stock data."%string)
                    (Loaded zero None MetricsLoading [] false blankForm)).
Proof.
  assert (H : Some (NotAnArray (Str "down for maintenance")) = None
              \/ exists v, Some (NotAnArray (Str "down for maintenance"))
                           = Some (NotAnArray v))
    by (right; eexists; reflexivity).
  split; [exact H|].
  exact (failed_first_load_view decimalLiteral halves _ H).
Defined.

Lemma render_after_load_witness :
  portfolioMetrics (ui (mkWorld initialState [])) <> None
  /\ render halves
       (ui (snd (fetchStocks decimalLiteral (Some (Records []))
                             (mkWorld initialState []))))
     = None
  /\ render halves
       (ui (snd (fetchStocks decimalLiteral (Some (Records [cord]))
                             (mkWorld initialState []))))
     <> None.
Proof.
  assert (H : portfolioMetrics (ui (mkWorld initialState [])) <> None)
    by discriminate.
  split; [exact H|]. split.
  - apply (proj2 (render_after_load decimalLiteral halves (Some (Records []))
                    (mkWorld initialState []) H)).
    reflexivity.
  - intro E.
    apply (proj1 (render_after_load decimalLiteral halves
                    (Some (Records [cord])) (mkWorld initialState []) H)) in E.
    discriminate E.
Defined.

Lemma render_after_delete_witness :
  let r := rendered [acme] blankForm None None in
  loading r = false
  /\ Forall (fun x => strict_eq (id x) (num 1) = true) (stocks r)
  /\ render halves
       (ui (dispatch (fun r => handleDeleteStock decimalLiteral
                                 (answering acme) r (num 1)) r))
     = None.
Proof.
  intro r.
  assert (F : Forall (fun x => strict_eq (id x) (num 1) = true) (stocks r))
    by (repeat constructor).
  split; [reflexivity|]. split; [exact F|].
  exact (proj2 (render_after_delete decimalLiteral halves (answering acme) r
                  (num 1) acme eq_refl eq_refl) F).
Defined.
